(** * children-drawings-predict: the [/predict] request handler of [api/index.py]

    A shallow embedding of the Flask handler and of the collaborators it calls
    (werkzeug's upload object and [secure_filename], [os.path], PIL, the
    classification model, numpy's floating-point scalars and Python's ["%.2f"]
    formatting), followed by the properties the specification states about
    them. *)

From Stdlib Require Import ZArith Lia List Ascii String QArith Qabs Qpower Lqa.
From Stdlib Require Import Strings.Byte.
From Stdlib Require Import Floats.SpecFloat.
From stdpp Require Import gmap strings list pretty.

Local Open Scope string_scope.
Local Open Scope list_scope.
Local Open Scope Z_scope.

(** ** Python values the handler manipulates *)

Module Py.

(** A Python [str] is a sequence of Unicode code points.  Paths, messages and
    JSON strings are kept as [string]; only the client-supplied file name,
    which may hold any code point, is kept as a [ustr]. *)
Definition ustr := list N.

Definition is_ascii (c : N) : bool := (c <? 128)%N.

Definition u (s : string) : ustr := map N_of_ascii (list_ascii_of_string s).

(** [str.lower] on one ASCII code point. *)
Definition ascii_lower (c : N) : N :=
  if ((65 <=? c) && (c <=? 90))%N then (c + 32)%N else c.

(** An instance of [Exception]: its class name and its [str()]. *)
Record exn := Exn { exn_class : string; exn_str : string }.

(** The outcome of evaluating an expression or a statement. *)
Inductive result (A : Type) :=
| Returns (a : A)
| Raises (e : exn).
Arguments Returns {A} a.
Arguments Raises {A} e.

(** [enumerate(xs)] *)
Fixpoint enumerate_from {A} (i : nat) (xs : list A) : list (nat * A) :=
  match xs with
  | [] => []
  | x :: xs' => (i, x) :: enumerate_from (S i) xs'
  end.

Definition enumerate {A} (xs : list A) : list (nat * A) := enumerate_from 0 xs.

End Py.

(** ** numpy floating-point scalars and ["%.2f"] *)

Module Numpy.

(** The floating-point type in which [prob * 100] is evaluated.  The model
    runtime produces single-precision arrays; their scalars multiply in
    single precision under NumPy 2's promotion rules and in double precision
    under NumPy 1's (a single-precision scalar times a Python integer), and
    an array built from Python floats is in double precision. *)
Inductive dtype := float32 | float64.

Definition prec (d : dtype) : Z :=
  match d with float32 => 24 | float64 => 53 end.

Definition emax (d : dtype) : Z :=
  match d with float32 => 128 | float64 => 1024 end.

(** A one-dimensional array of floats: its elements, and the type its
    scalars compute in. *)
Record ndarray := NdArray { arr_dtype : dtype; arr_data : list spec_float }.

(** A Python integer converted to the array's element type. *)
Definition of_int (d : dtype) (n : Z) : spec_float :=
  binary_normalize (prec d) (emax d) n 0 false.

(** [x * y] on two scalars of type [d]: IEEE 754 multiplication, rounding to
    nearest, ties to even. *)
Definition mul (d : dtype) (x y : spec_float) : spec_float :=
  SFmul (prec d) (emax d) x y.

(** [prob * 100] *)
Definition times100 (d : dtype) (prob : spec_float) : spec_float :=
  mul d prob (of_int d 100).

(** [a / b] rounded to the nearest integer, ties to the even one
    ([0 <= a], [0 < b]). *)
Definition round_half_even_div (a b : Z) : Z :=
  let q := a / b in
  let r := a mod b in
  match 2 * r ?= b with
  | Lt => q
  | Gt => q + 1
  | Eq => if Z.even q then q else q + 1
  end.

(** The magnitude [m * 2^e] in hundredths, correctly rounded: the integer
    whose digits ["%.2f"] prints. *)
Definition hundredths (m : positive) (e : Z) : Z :=
  if 0 <=? e then Zpos m * 2 ^ e * 100
  else round_half_even_div (Zpos m * 100) (2 ^ (- e)).

Definition digit (n : Z) : ascii := ascii_of_N (48 + Z.to_N n).

(** [h] hundredths written with two decimal digits. *)
Definition fixed2 (h : Z) : string :=
  pretty (Z.to_N (h / 100)) +:+ "." +:+
  String (digit (h mod 100 / 10)) (String (digit (h mod 10)) "").

Definition sign_str (s : bool) : string := if s then "-" else "".


(** [format(x, ".2f")] for a numpy scalar: the scalar is widened exactly to a
    Python float, which is printed correctly rounded. *)
Definition format_2f (x : spec_float) : string :=
  match x with
  | S754_nan => "nan"
  | S754_infinity s => sign_str s +:+ "inf"
  | S754_zero s => sign_str s +:+ "0.00"
  | S754_finite s m e => sign_str s +:+ fixed2 (hundredths m e)
  end.


(** [f"{prob * 100:.2f}%"] *)
Definition percent (d : dtype) (prob : spec_float) : string :=
  format_2f (times100 d prob) +:+ "%".




(** The float nearest to the decimal literal [n / 10^k], as Python reads it. *)
Definition literal (d : dtype) (n : Z) (k : Z) : spec_float :=
  SFdiv (prec d) (emax d) (of_int d n) (of_int d (10 ^ k)).

End Numpy.

(** ** The label table and the predictions dictionary (lines 86-87) *)

Module Labels.
Import Py Numpy.

Definition label_names : gmap nat string :=
  {[ 0%nat := "Anger and aggression"; 1%nat := "Anxiety";
     2%nat := "Happy"; 3%nat := "Sad" ]}.

(** [label_names.get(i, f'Class {i}')] *)
Definition label (i : nat) : string :=
  default ("Class " +:+ pretty i) (label_names !! i).

(** One entry of the dict comprehension:
    [label_names.get(i, f'Class {i}'): f"{prob * 100:.2f}%"]. *)
Definition add_entry (d : dtype) (acc : gmap string string)
    (ip : nat * spec_float) : gmap string string :=
  <[ label ip.1 := percent d ip.2 ]> acc.

(** The dict comprehension: entries are inserted in index order, a later
    entry replacing an earlier one with the same key. *)
Definition predictions (probs : ndarray) : gmap string string :=
  foldl (add_entry (arr_dtype probs)) ∅ (enumerate (arr_data probs)).

End Labels.

(** ** werkzeug: the upload object and [secure_filename] *)

Module Werkzeug.
Import Py.

(** [werkzeug.datastructures.FileStorage]: one file part of the multipart
    form, with the file name the client sent and the uploaded bytes. *)
Record FileStorage := { filename : ustr; stream : list byte }.

(** [bool(file)] is [bool(file.filename)]. *)
Definition truthy (file : FileStorage) : bool :=
  match filename file with [] => false | _ => true end.

(** [request.files]: the file parts of the form in the order received, each
    under its field name. *)
Definition files_multidict := list (string * FileStorage).

(** [key in request.files] *)
Definition contains_key (key : string) (files : files_multidict) : bool :=
  existsb (fun kv => String.eqb kv.1 key) files.

(** [request.files[key]]: the first part with that field name. *)
Definition getitem (key : string) (files : files_multidict) : option FileStorage :=
  snd <$> List.find (fun kv => String.eqb kv.1 key) files.

(** [s.encode("ascii", "ignore").decode("ascii")] *)
Definition encode_ascii_ignore (s : ustr) : list ascii :=
  map ascii_of_N (List.filter is_ascii s).

(** [s.replace(a, b)] for single characters. *)
Definition replace_char (a b : ascii) (s : list ascii) : list ascii :=
  map (fun c => if Ascii.eqb c a then b else c) s.

(** The characters [str.split()] treats as white space, among ASCII ones. *)
Definition is_space (c : ascii) : bool :=
  let n := N_of_ascii c in
  ((9 <=? n) && (n <=? 13) || (28 <=? n) && (n <=? 32))%N.

(** [s.split()]: the maximal runs of characters that are not white space;
    [cur] is the run being read, in reverse. *)
Fixpoint split_from (cur : list ascii) (s : list ascii) : list (list ascii) :=
  match s with
  | [] => match cur with [] => [] | _ => [rev cur] end
  | c :: s' =>
    if is_space c then
      match cur with
      | [] => split_from [] s'
      | _ => rev cur :: split_from [] s'
      end
    else split_from (c :: cur) s'
  end.

Definition split (s : list ascii) : list (list ascii) := split_from [] s.

(** [sep.join(parts)] *)
Fixpoint join (sep : list ascii) (parts : list (list ascii)) : list ascii :=
  match parts with
  | [] => []
  | [p] => p
  | p :: ps => p ++ sep ++ join sep ps
  end.

(** The characters [_filename_ascii_strip_re = [^A-Za-z0-9_.-]] leaves. *)
Definition filename_char (c : ascii) : bool :=
  let n := N_of_ascii c in
  ((65 <=? n) && (n <=? 90) || (97 <=? n) && (n <=? 122) ||
   (48 <=? n) && (n <=? 57) || (n =? 95) || (n =? 46) || (n =? 45))%N.

Definition in_chars (chars : list ascii) (c : ascii) : bool :=
  existsb (Ascii.eqb c) chars.

(** [s.lstrip(chars)], [s.rstrip(chars)], [s.strip(chars)] *)
Fixpoint lstrip (chars : list ascii) (s : list ascii) : list ascii :=
  match s with
  | [] => []
  | c :: s' => if in_chars chars c then lstrip chars s' else s
  end.

Definition rstrip (chars s : list ascii) : list ascii :=
  rev (lstrip chars (rev s)).

Definition strip (chars s : list ascii) : list ascii :=
  rstrip chars (lstrip chars s).

(** [secure_filename(filename)] on a POSIX platform ([os.sep] is ["/"],
    there is no [os.path.altsep], [os.name] is not ["nt"]).  [nfkd] is
    [unicodedata.normalize("NFKD", _)]. *)
Definition secure_filename (nfkd : ustr -> ustr) (filename : ustr) : string :=
  let filename := nfkd filename in
  let filename := encode_ascii_ignore filename in
  let filename := replace_char "/" " " filename in
  let filename :=
    strip ["."; "_"]%char
      (List.filter filename_char (join ["_"%char] (split filename))) in
  string_of_list_ascii filename.

End Werkzeug.

(** ** [os.path] and the file system *)

Module Os.
Import Py.

Definition startswith_sep (p : string) : bool :=
  match p with String "/" _ => true | _ => false end.

Fixpoint endswith_sep (p : string) : bool :=
  match p with
  | "" => false
  | String c "" => Ascii.eqb c "/"
  | String _ p' => endswith_sep p'
  end.

(** [posixpath.join(a, b)] *)
Definition path_join (a b : string) : string :=
  if startswith_sep b then b
  else if String.eqb a "" || endswith_sep a then a +:+ b
  else a +:+ "/" +:+ b.

End Os.

(** ** PIL images and the files of the scratch directory *)

Module Pil.

(** A [PIL.Image]: where its pixels come from, and its [size]
    (width, height). *)
Inductive image :=
| Decoded (raw : list byte) (size : nat * nat)
| Resized (src : image) (size : nat * nat).

Definition size (img : image) : nat * nat :=
  match img with
  | Decoded _ sz => sz
  | Resized _ sz => sz
  end.

(** What a path names: a file holding the bytes of an upload, a file
    holding an image PIL wrote, or a directory. *)
Inductive content :=
| Uploaded (raw : list byte)
| Saved (img : image)
| Directory.

(** The dimensions of the image stored in a file PIL wrote. *)
Definition saved_size (c : content) : option (nat * nat) :=
  match c with
  | Saved img => Some (size img)
  | Uploaded _ => None
  | Directory => None
  end.

End Pil.

(** ** The classification model's output *)

Module Model.
Import Py Numpy.

(** The first thing the handler looks at in a result: its [probs]
    attribute. *)
Inductive probs_attr :=
| NoProbsAttr                     (* [hasattr(r, 'probs')] is false *)
| ProbsNone                       (* [r.probs is None] *)
| Probs (numpy : result ndarray). (* what [r.probs.data.numpy()] evaluates to *)

(** The value [model.predict] returns. *)
Inductive results :=
| NotAList
| ResultList (rs : list probs_attr).

End Model.

(** ** The world the handler runs in *)

Module Sys.
Import Py Werkzeug Pil Model.

Abbreviation filesystem := (gmap string content).

(** One call of [model.predict]: the source path it was given, what was
    stored at that path when the call was made, and how the call ended. *)
Record model_call := {
  source : string;
  seen : option content;
  outcome : result results
}.

(** The files on disk, the records handed to [logging], and the calls the
    model has received. *)
Record World := {
  fs : filesystem;
  log : list (string * string);
  model_calls : list model_call
}.

(** The collaborators' behaviour, which the handler does not control.  A
    collaborator that fails says which exception it raises and what it left
    on disk. *)
Record Env := {
  (* [os.getcwd()] when the module is loaded *)
  getcwd : string;
  (* the [FileNotFoundError] the operating system raises for a path *)
  enoent : string -> exn;
  (* the [IsADirectoryError] the operating system raises for a path *)
  eisdir : string -> exn;
  (* [file.save(path)]: [None] when the bytes are written *)
  save_fails : FileStorage -> string -> filesystem -> option (exn * filesystem);
  (* PIL's decoders: the size of the image held in these bytes *)
  decode : list byte -> result (nat * nat);
  (* [img.resize(size)]: [None] when it returns the resized image *)
  resize_fails : image -> nat * nat -> option exn;
  (* [img.save(path)]: [None] when the image is written *)
  save_image_fails : image -> string -> filesystem -> option (exn * filesystem);
  (* [model.predict(source=path, show=False)] *)
  model : string -> filesystem -> result results * filesystem;
  (* [os.remove(path)] on a path that names something: [None] when the
     entry is removed (the operating system refuses for a directory, or
     when the process may not write to the directory that holds the
     entry) *)
  remove_fails : string -> filesystem -> option exn
}.

(** Statements and expressions with effects: they read and change the
    world, and return or raise. *)
Definition M (A : Type) : Type := World -> result A * World.

Definition ret {A} (a : A) : M A := fun w => (Returns a, w).

Definition raise {A} (e : exn) : M A := fun w => (Raises e, w).

Definition bind {A B} (m : M A) (k : A -> M B) : M B :=
  fun w =>
    match m w with
    | (Returns a, w') => k a w'
    | (Raises e, w') => (Raises e, w')
    end.

(** [try: body except Exception as e: handler] *)
Definition try_except {A} (body : M A) (handler : exn -> M A) : M A :=
  fun w =>
    match body w with
    | (Returns a, w') => (Returns a, w')
    | (Raises e, w') => handler e w'
    end.

Definition lift {A} (r : result A) : M A := fun w => (r, w).

Notation "'do' x <- m ; k" := (bind m (fun x => k))
  (at level 10, x name, m at level 100, k at level 200).
Notation "'run' m ; k" := (bind m (fun _ => k))
  (at level 10, m at level 100, k at level 200).

Definition set_fs (w : World) (fs' : filesystem) : World :=
  {| fs := fs'; log := log w; model_calls := model_calls w |}.

(** [logging.info(msg)], [logging.error(msg)] *)
Definition logging (level msg : string) : M unit :=
  fun w =>
    (Returns tt,
     {| fs := fs w; log := log w ++ [(level, msg)]; model_calls := model_calls w |}).

(** [file.save(path)] *)
Definition file_save (env : Env) (file : FileStorage) (path : string) : M unit :=
  fun w =>
    match save_fails env file path (fs w) with
    | None => (Returns tt, set_fs w (<[ path := Uploaded (stream file) ]> (fs w)))
    | Some (e, fs') => (Raises e, set_fs w fs')
    end.

(** [Image.open(path)] *)
Definition image_open (env : Env) (path : string) : M image :=
  fun w =>
    match fs w !! path with
    | None => (Raises (enoent env path), w)
    | Some Directory => (Raises (eisdir env path), w)
    | Some (Saved img) => (Returns img, w)
    | Some (Uploaded raw) =>
      match decode env raw with
      | Returns sz => (Returns (Decoded raw sz), w)
      | Raises e => (Raises e, w)
      end
    end.

(** [img.resize(size)] *)
Definition image_resize (env : Env) (img : image) (sz : nat * nat) : M image :=
  match resize_fails env img sz with
  | None => ret (Resized img sz)
  | Some e => raise e
  end.

(** [img.save(path)] *)
Definition image_save (env : Env) (img : image) (path : string) : M unit :=
  fun w =>
    match save_image_fails env img path (fs w) with
    | None => (Returns tt, set_fs w (<[ path := Saved img ]> (fs w)))
    | Some (e, fs') => (Raises e, set_fs w fs')
    end.

(** [model.predict(source=path, show=False)] *)
Definition model_predict (env : Env) (path : string) : M results :=
  fun w =>
    let '(r, fs') := model env path (fs w) in
    (r, {| fs := fs'; log := log w;
           model_calls :=
             model_calls w ++
             [{| source := path; seen := fs w !! path; outcome := r |}] |}).

(** [os.remove(path)]: it raises when nothing is at the path, and when the
    operating system refuses to remove what is there; the entry is then
    left as it is. *)
Definition os_remove (env : Env) (path : string) : M unit :=
  fun w =>
    match fs w !! path with
    | None => (Raises (enoent env path), w)
    | Some _ =>
      match remove_fails env path (fs w) with
      | None => (Returns tt, set_fs w (delete path (fs w)))
      | Some e => (Raises e, w)
      end
    end.

(** [os.path.exists(path)] *)
Definition os_path_exists (path : string) : M bool :=
  fun w => (Returns (bool_decide (is_Some (fs w !! path))), w).

End Sys.

(** ** The application: [api/index.py] *)

Module App.
Import Py Numpy Labels Werkzeug Os Pil Model Sys.

Section Handler.

(** The Unicode tables behind [str.lower] and [unicodedata.normalize]. *)
Variable str_lower : ustr -> ustr.
Variable nfkd : ustr -> ustr.

(** [ALLOWED_EXTENSIONS = {'png', 'jpg', 'jpeg'}] *)
Definition ALLOWED_EXTENSIONS : gset ustr := {[ u "png"; u "jpg"; u "jpeg" ]}.

(** [UPLOADS_DIR = os.path.join(os.getcwd(), "uploads")] *)
Definition UPLOADS_DIR (env : Env) : string := path_join (getcwd env) "uploads".

(** [c in s] *)
Definition contains (c : N) (s : ustr) : bool := existsb (N.eqb c) s.

(** The text before the last [sep] of [s], if [s] has one, and the text
    after it. *)
Fixpoint rpartition (sep : N) (s : ustr) : option ustr * ustr :=
  match s with
  | [] => (None, [])
  | c :: s' =>
    match rpartition sep s' with
    | (Some h, t) => (Some (c :: h), t)
    | (None, t) => if N.eqb c sep then (Some [], t) else (None, c :: t)
    end
  end.

(** [s.rsplit(sep, 1)] *)
Definition rsplit1 (sep : N) (s : ustr) : list ustr :=
  match rpartition sep s with
  | (Some h, t) => [h; t]
  | (None, t) => [t]
  end.

(** [xs[i]] *)
Definition index {A} (xs : list A) (i : nat) : result A :=
  match xs !! i with
  | Some x => Returns x
  | None => Raises (Exn "IndexError" "list index out of range")
  end.

(** [allowed_file(filename)], line 37 *)
Definition allowed_file (filename : ustr) : result bool :=
  if contains 46 filename then
    match index (rsplit1 46 filename) 1 with
    | Returns ext => Returns (bool_decide (str_lower ext ∈ ALLOWED_EXTENSIONS))
    | Raises e => Raises e
    end
  else Returns false.

(** [str((w, h))] *)
Definition str_size (sz : nat * nat) : string :=
  "(" +:+ pretty sz.1 +:+ ", " +:+ pretty sz.2 +:+ ")".

(** [resize_image(filepath, target_size=(224, 224))], line 41 *)
Definition resize_image (env : Env) (filepath : string) (target_size : nat * nat) : M unit :=
  try_except
    (do img <- image_open env filepath;
     do img <- image_resize env img target_size;
     run image_save env img filepath;
     logging "INFO" ("Image resized to: " +:+ str_size target_size))
    (fun e => raise (Exn "RuntimeError" ("Error resizing image: " +:+ exn_str e))).

(** A JSON response body: [{'predictions': d}] or [{'error': msg}]. *)
Inductive json :=
| JPredictions (d : gmap string string)
| JError (msg : string).

(** A response: [jsonify(body), status]. *)
Definition response : Type := json * nat.

Record Request := { req_files : files_multidict }.

(** Lines 84-90: what is answered from the model's results. *)
Definition extract (results : results) : result response :=
  let unable := Returns (JError "Unable to process the image", 500%nat) in
  match results with
  | NotAList => unable
  | ResultList rs =>
    match index rs 0 with
    | Raises e => Raises e
    | Returns NoProbsAttr => unable
    | Returns ProbsNone => unable
    | Returns (Probs numpy) =>
      match numpy with
      | Raises e => Raises e
      | Returns probs => Returns (JPredictions (predictions probs), 200%nat)
      end
    end
  end.

(** The path an upload is stored at (lines 62-63). *)
Definition filepath_of (env : Env) (file : FileStorage) : string :=
  let filename := secure_filename nfkd (filename file) in
  path_join (UPLOADS_DIR env) filename.

(** The [try] block of [predict], lines 66-90. *)
Definition predict_try (env : Env) (file : FileStorage) (filepath : string) : M response :=
  run file_save env file filepath;
  run logging "INFO" ("Image saved at: " +:+ filepath);
  do img <- image_open env filepath;
  run logging "INFO" ("Original image size: " +:+ str_size (size img));
  run resize_image env filepath (224%nat, 224%nat);
  do results <- model_predict env filepath;
  run os_remove env filepath;
  lift (extract results).

(** The [except Exception as e] block of [predict], lines 93-97. *)
Definition predict_except (env : Env) (filepath : string) (e : exn) : M response :=
  run logging "ERROR" ("Error during prediction: " +:+ exn_str e);
  do present <- os_path_exists filepath;
  run (if present then os_remove env filepath else ret tt);
  ret (JError ("Error during prediction: " +:+ exn_str e), 500%nat).

(** [predict()], line 51 *)
Definition predict (env : Env) (request : Request) : M response :=
  if negb (contains_key "image" (req_files request)) then
    ret (JError "No image file provided", 400%nat)
  else
    match getitem "image" (req_files request) with
    | None => raise (Exn "BadRequestKeyError" "image")
    | Some file =>
      do ok <- (if truthy file then lift (allowed_file (filename file)) else ret false);
      if negb ok then
        ret (JError "Invalid file format. Allowed formats: png, jpg, jpeg", 400%nat)
      else
        let filepath := filepath_of env file in
        try_except (predict_try env file filepath) (predict_except env filepath)
    end.

(** *** Notions the specification uses *)

(** The file name has an extension in {png, jpg, jpeg}, compared without
    regard to case: it ends with a dot followed by a dot-free text whose
    lower-cased form is one of the three. *)
Definition has_allowed_extension (filename : ustr) : Prop :=
  exists stem ext : ustr,
    filename = (stem ++ 46%N :: ext)%list /\ (46%N ∉ ext) /\
    (str_lower ext ∈ ALLOWED_EXTENSIONS).

(** The request carries no file part under the field name [key]. *)
Definition no_part_named (key : string) (request : Request) : Prop :=
  forall file, (key, file) ∉ req_files request.

(** The model's results carry no probability vector for the first result. *)
Definition no_probability_vector (r : results) : bool :=
  match r with
  | NotAList => true
  | ResultList [] => true
  | ResultList (NoProbsAttr :: _) => true
  | ResultList (ProbsNone :: _) => true
  | ResultList (Probs _ :: _) => false
  end.

(** [path] names an entry of the directory [dir] itself: [dir], a separator
    and one path component, which is not empty, not ["."], not [".."] and
    holds no separator. *)
Definition directly_inside (dir path : string) : Prop :=
  exists name : string,
    path = dir +:+ "/" +:+ name /\ name <> "" /\ name <> "." /\ name <> ".." /\
    ~ In "/"%char (list_ascii_of_string name).

End Handler.

(** The model call a request makes when the [try] block gets that far: on
    the stored path, with the resized image on disk. *)
Definition inference_call (filepath : string) (img : image) (res : result results) : model_call :=
  {| source := filepath;
     seen := Some (Saved (Resized img (224%nat, 224%nat)));
     outcome := res |}.

End App.

Import Py Numpy Labels Werkzeug Os Pil Model Sys App.

(** ** Module start-up (lines 18-34) *)

Module Startup.
Import Py Os Sys App.

(** What the module finds when it is loaded: the process environment, which
    paths exist, and how the collaborators it calls behave. *)
Record Host := {
  (* [os.environ] *)
  environ : gmap string string;
  (* [os.path.exists(path)] *)
  path_exists : string -> bool;
  (* [YOLO(path)]: [None] when the model object is built *)
  yolo_fails : string -> option exn;
  (* [os.makedirs(path, exist_ok=True)]: [None] when the directory exists
     afterwards *)
  makedirs_fails : string -> option exn
}.

(** What loading the module has done so far: the records handed to
    [logging], the paths [YOLO] was called with and the directories
    [os.makedirs] was called with. *)
Record Boot := {
  boot_log : list (string * string);
  yolo_calls : list string;
  makedirs_calls : list string
}.

(** [os.getenv(key, default)] *)
Definition os_getenv (host : Host) (key default : string) : string :=
  match environ host !! key with
  | Some v => v
  | None => default
  end.

(** [MODEL_PATH = os.getenv("MODEL_PATH", "../best.pt")] *)
Definition MODEL_PATH (host : Host) : string :=
  os_getenv host "MODEL_PATH" "../best.pt".

(** Lines 19-34: the statements run when the module is loaded. *)
Definition startup (host : Host) (env : Env) (b : Boot) : result unit * Boot :=
  if negb (path_exists host (MODEL_PATH host)) then
    (Raises (Exn "FileNotFoundError"
               ("Model file not found at " +:+ MODEL_PATH host +:+
                ". Ensure the path is correct.")), b)
  else
    let b1 := {| boot_log := boot_log b;
                 yolo_calls := yolo_calls b ++ [MODEL_PATH host];
                 makedirs_calls := makedirs_calls b |} in
    match yolo_fails host (MODEL_PATH host) with
    | Some e =>
      (Raises (Exn "RuntimeError" ("Error loading YOLO model: " +:+ exn_str e)), b1)
    | None =>
      let b2 := {| boot_log := boot_log b1 ++ [("INFO", "YOLO model loaded successfully.")];
                   yolo_calls := yolo_calls b1;
                   makedirs_calls := makedirs_calls b1 ++ [UPLOADS_DIR env] |} in
      match makedirs_fails host (UPLOADS_DIR env) with
      | Some e => (Raises e, b2)
      | None => (Returns tt, b2)
      end
    end.

End Startup.

(** ** Notions used to state what sanitizing keeps of a file name *)

Module Sanitized.
Import Py.

(** An ASCII letter, a digit or a hyphen: the characters of a file name
    that [secure_filename] keeps wherever they stand. *)
Definition kept_anywhere (c : N) : bool :=
  ((48 <=? c) && (c <=? 57) || (65 <=? c) && (c <=? 90) ||
   (97 <=? c) && (c <=? 122) || (c =? 45))%N.

(** A text of ASCII code points as a [string]. *)
Definition ascii_text (s : ustr) : string :=
  string_of_list_ascii (map ascii_of_N s).

End Sanitized.

(** ** Notions used to state what the handler leaves alone *)

Module Frame.
Import Py Werkzeug Pil Model Sys App.

(** [fs'] differs from [fs] at [path] at most. *)
Definition same_elsewhere (path : string) (fs fs' : filesystem) : Prop :=
  forall p, p <> path -> fs' !! p = fs !! p.

(** Saving the upload, writing the resized image and running the model
    change no file but the one at [path], also when they fail. *)
Definition collaborators_touch_only (env : Env) (file : FileStorage) (path : string) : Prop :=
  (forall fs e fs', save_fails env file path fs = Some (e, fs') -> same_elsewhere path fs fs')
  /\ (forall img fs e fs',
        save_image_fails env img path fs = Some (e, fs') -> same_elsewhere path fs fs')
  /\ (forall fs r fs', model env path fs = (r, fs') -> same_elsewhere path fs fs').

(** [os.remove] does not fail on an entry at [path]. *)
Definition removal_succeeds (env : Env) (path : string) : Prop :=
  forall fs, remove_fails env path fs = None.

(** A log record of level INFO. *)
Definition is_info (record : string * string) : Prop := record.1 = "INFO".

End Frame.

(** ** The scenarios of the specification *)

Module Scenario.
Import Py Numpy Labels Werkzeug Os Pil Model Sys App.

(** [str.lower] and NFKD normalization on ASCII text; they are used on
    ASCII file names only. *)
Definition ascii_str_lower (s : ustr) : ustr := map ascii_lower s.

Definition ascii_nfkd (s : ustr) : ustr := s.

(** A deployment in which every collaborator succeeds, and the model
    answers [r] whatever it is given. *)
Definition mock_env (r : result results) : Env := {|
  getcwd := "/srv/app";
  enoent := fun path =>
    Exn "FileNotFoundError" ("[Errno 2] No such file or directory: '" +:+ path +:+ "'");
  eisdir := fun path =>
    Exn "IsADirectoryError" ("[Errno 21] Is a directory: '" +:+ path +:+ "'");
  save_fails := fun _ _ _ => None;
  decode := fun _ => Returns (640%nat, 480%nat);
  resize_fails := fun _ _ => None;
  save_image_fails := fun _ _ _ => None;
  model := fun _ fs => (r, fs);
  remove_fails := fun _ _ => None
|}.

Definition empty_world : World := {| fs := ∅; log := []; model_calls := [] |}.

(** An upload of [name] under the field "image". *)
Definition upload (name : string) : Request :=
  {| req_files := [("image", {| filename := u name; stream := [x89; x50] |})] |}.

(** The vector [0.01, 0.02, 0.95, 0.02] with elements of type [stored],
    whose scalars compute in [d]. *)
Definition happy_vector (stored d : dtype) : ndarray :=
  NdArray d [literal stored 1 2; literal stored 2 2;
             literal stored 95 2; literal stored 2 2].

Definition happy_results (stored d : dtype) : result results :=
  Returns (ResultList [Probs (Returns (happy_vector stored d))]).

(** A model that fails. *)
Definition inference_error : exn := Exn "RuntimeError" "inference failed".

Definition failing_model : result results := Raises inference_error.

Definition happy_file : FileStorage :=
  {| filename := u "happy.jpg"; stream := [x89; x50] |}.

Definition happy_path : string := "/srv/app/uploads/happy.jpg".

Definition handle (env : Env) (request : Request) : result response * World :=
  predict ascii_str_lower ascii_nfkd env request empty_world.

(** The world in which the failing model has just raised. *)
Definition after_failed_inference : World :=
  (predict_try (mock_env failing_model) happy_file happy_path empty_world).2.

End Scenario.

(** ** Further scenarios *)

Module MoreScenarios.
Import Py Numpy Labels Werkzeug Os Pil Model Sys App Scenario.

(** A second file part. *)
Definition other_file : FileStorage :=
  {| filename := u "notes.txt"; stream := [x00] |}.

(** A form with a part under another field name and two parts named
    "image". *)
Definition crowded_upload : Request :=
  {| req_files := [("note", other_file); ("image", happy_file); ("image", other_file)] |}.

(** The answer to "happy.jpg" when the model returns [0.01, 0.02, 0.95,
    0.02] in single precision. *)
Definition happy_answer : result response * World :=
  handle (mock_env (happy_results float32 float32)) (upload "happy.jpg").

(** The errors the operating system raises for a path. *)
Definition is_a_directory (path : string) : exn :=
  Exn "IsADirectoryError" ("[Errno 21] Is a directory: '" +:+ path +:+ "'").

Definition permission_denied (path : string) : exn :=
  Exn "PermissionError" ("[Errno 13] Permission denied: '" +:+ path +:+ "'").

(** A deployment in which a directory stands in the way: where a path
    names a directory no file can be written, and [os.remove] refuses to
    remove it. *)
Definition posix_env (r : result results) : Env := {|
  getcwd := "/srv/app";
  enoent := fun path =>
    Exn "FileNotFoundError" ("[Errno 2] No such file or directory: '" +:+ path +:+ "'");
  eisdir := is_a_directory;
  save_fails := fun _ path fs =>
    match fs !! path with
    | Some Directory => Some (is_a_directory path, fs)
    | _ => None
    end;
  decode := fun _ => Returns (640%nat, 480%nat);
  resize_fails := fun _ _ => None;
  save_image_fails := fun _ path fs =>
    match fs !! path with
    | Some Directory => Some (is_a_directory path, fs)
    | _ => None
    end;
  model := fun _ fs => (r, fs);
  remove_fails := fun path fs =>
    match fs !! path with
    | Some Directory => Some (is_a_directory path)
    | _ => None
    end
|}.

(** A deployment whose uploads directory the process may not write to: a
    file that exists can be written again, but no file can be created and
    none can be removed. *)
Definition readonly_env (r : result results) : Env := {|
  getcwd := "/srv/app";
  enoent := fun path =>
    Exn "FileNotFoundError" ("[Errno 2] No such file or directory: '" +:+ path +:+ "'");
  eisdir := is_a_directory;
  save_fails := fun _ path fs =>
    match fs !! path with
    | None => Some (permission_denied path, fs)
    | _ => None
    end;
  decode := fun _ => Returns (640%nat, 480%nat);
  resize_fails := fun _ _ => None;
  save_image_fails := fun _ path fs =>
    match fs !! path with
    | None => Some (permission_denied path, fs)
    | _ => None
    end;
  model := fun _ fs => (r, fs);
  remove_fails := fun path _ => Some (permission_denied path)
|}.

(** A world in which a directory has the name of the upload. *)
Definition world_with_directory : World :=
  {| fs := {[ happy_path := Directory ]}; log := []; model_calls := [] |}.

(** The image the handler leaves on disk for "happy.jpg". *)
Definition happy_resized : image :=
  Resized (Decoded (stream happy_file) (640%nat, 480%nat)) (224%nat, 224%nat).

(** A world that already holds a file under the name of the upload, and
    another one beside it. *)
Definition world_with_leftover : World :=
  {| fs := {[ happy_path := Uploaded [x00]; "/srv/app/uploads/other.png" := Uploaded [x01] ]};
     log := []; model_calls := [] |}.

End MoreScenarios.

(** * Properties *)

Module Props.
Import Py Numpy Labels Werkzeug Os Pil Model Sys App Frame Scenario.

(** ** Rounding: what [SpecFloat]'s multiplication computes *)











Section Round.

Variables prec emax : Z.
Hypothesis Hprec : 0 < prec.

Local Abbreviation fexp := (fexp prec emax).
Local Abbreviation shr_fexp := (shr_fexp prec emax).




End Round.

(** ** Rounding as rational numbers *)









Section RoundValue.

Variables prec emax : Z.
Hypothesis Hprec : 0 < prec.


End RoundValue.















(** ** Labels and percentages *)

Lemma label_names_none i : (4 <= i)%nat -> label_names !! i = None.
Proof.
  intros Hi. unfold label_names.
  rewrite !lookup_insert_ne by lia. apply lookup_singleton_ne. lia.
Qed.

Lemma label_class i : (4 <= i)%nat -> label i = "Class " +:+ pretty i.
Proof. intros Hi. unfold label. by rewrite label_names_none. Qed.

Lemma class_head (t : string) : exists t', "Class " +:+ t = String "C" t'.
Proof. by eexists. Qed.

Lemma label_inj i j : label i = label j -> i = j.
Proof.
  assert (Hsmall : forall k, (k < 4)%nat ->
            k = 0%nat /\ label k = "Anger and aggression" \/
            k = 1%nat /\ label k = "Anxiety" \/
            k = 2%nat /\ label k = "Happy" \/
            k = 3%nat /\ label k = "Sad").
  { intros k Hk.
    destruct k as [|[|[|[|k]]]];
      [ left | right; left | right; right; left | right; right; right | lia ];
      split; reflexivity. }
  destruct (Nat.lt_ge_cases i 4) as [Hi|Hi], (Nat.lt_ge_cases j 4) as [Hj|Hj].
  - destruct (Hsmall i Hi) as [[-> ->]|[[-> ->]|[[-> ->]|[-> ->]]]];
      destruct (Hsmall j Hj) as [[-> ->]|[[-> ->]|[[-> ->]|[-> ->]]]];
      intros H; first [reflexivity | discriminate H].
  - rewrite (label_class j Hj). destruct (class_head (pretty j)) as [t ->].
    destruct (Hsmall i Hi) as [[-> ->]|[[-> ->]|[[-> ->]|[-> ->]]]];
      intros H; discriminate H.
  - rewrite (label_class i Hi). destruct (class_head (pretty i)) as [t ->].
    destruct (Hsmall j Hj) as [[-> ->]|[[-> ->]|[[-> ->]|[-> ->]]]];
      intros H; discriminate H.
  - rewrite (label_class i Hi), (label_class j Hj).
    intros H. cbv [String.app] in H. injection H as H.
    by apply (inj pretty) in H.
Qed.

Section Comprehension.

Variable d : dtype.

Local Abbreviation step := (add_entry d).

Lemma comprehension_miss xs i0 acc k :
  (forall j, (i0 <= j)%nat -> label j <> k) ->
  foldl step acc (enumerate_from i0 xs) !! k = acc !! k.
Proof.
  intros Hk. revert i0 acc Hk. induction xs as [|x xs IH]; intros i0 acc Hk; [done|].
  simpl. rewrite IH by (intros j Hj; apply Hk; lia).
  unfold add_entry. simpl. apply lookup_insert_ne, Hk. lia.
Qed.

Lemma comprehension_hit xs i0 acc j p :
  xs !! j = Some p ->
  foldl step acc (enumerate_from i0 xs) !! label (i0 + j) = Some (percent d p).
Proof.
  revert i0 acc j. induction xs as [|x xs IH]; intros i0 acc j Hj; [done|].
  destruct j as [|j]; simpl in *.
  - injection Hj as ->. rewrite Nat.add_0_r.
    rewrite comprehension_miss.
    + unfold add_entry. simpl. apply lookup_insert_eq.
    + intros j Hj Heq. apply label_inj in Heq. lia.
  - replace (i0 + S j)%nat with (S i0 + j)%nat by lia. by apply IH.
Qed.

Lemma comprehension_only xs i0 acc k v :
  foldl step acc (enumerate_from i0 xs) !! k = Some v ->
  acc !! k = Some v \/
  exists j p, xs !! j = Some p /\ k = label (i0 + j) /\ v = percent d p.
Proof.
  revert i0 acc. induction xs as [|x xs IH]; intros i0 acc; [by left|].
  simpl. intros H. apply IH in H as [H|(j & p & Hj & -> & ->)].
  - unfold add_entry in H. simpl in H.
    destruct (decide (label i0 = k)) as [<-|Hne].
    + rewrite lookup_insert_eq in H. injection H as <-.
      right. exists 0%nat, x. by rewrite Nat.add_0_r.
    + rewrite lookup_insert_ne in H by done. by left.
  - right. exists (S j), p. split; [done|]. split; [|done]. f_equal. lia.
Qed.

End Comprehension.




Section Validation.

Variable str_lower : ustr -> ustr.
Variable nfkd : ustr -> ustr.

Local Abbreviation allowed_file := (allowed_file str_lower).
Local Abbreviation predict := (predict str_lower nfkd).
Local Abbreviation has_allowed_extension := (has_allowed_extension str_lower).

Lemma contains_key_false key files :
  (forall file, (key, file) ∉ files) -> contains_key key files = false.
Proof.
  intros Hno. unfold contains_key.
  induction files as [|[k f] files IH]; simpl; [done|].
  destruct (String.eqb k key) eqn:Hk; simpl.
  - apply String.eqb_eq in Hk. subst k.
    exfalso. apply (Hno f). left.
  - apply IH. intros file Hin. apply (Hno file). by right.
Qed.

Lemma getitem_contains_key key files file :
  getitem key files = Some file -> contains_key key files = true.
Proof.
  unfold getitem, contains_key.
  induction files as [|[k f] files IH]; simpl; [done|].
  destruct (String.eqb k key); simpl; [done|]. apply IH.
Qed.

(** [rpartition] cuts at the last separator. *)
Lemma rpartition_None sep s t :
  rpartition sep s = (None, t) -> s = t /\ sep ∉ t.
Proof.
  revert t. induction s as [|c s IH]; intros t; simpl.
  - intros [= <-]. split; [done|]. apply not_elem_of_nil.
  - destruct (rpartition sep s) as [[?|] t'] eqn:Hr; [done|].
    destruct (N.eqb c sep) eqn:Hc; [done|].
    intros [= <-]. apply N.eqb_neq in Hc.
    destruct (IH _ eq_refl) as [-> Hnot]. split; [done|].
    apply not_elem_of_cons. done.
Qed.

Lemma rpartition_Some sep s h t :
  rpartition sep s = (Some h, t) -> s = (h ++ sep :: t)%list /\ sep ∉ t.
Proof.
  revert h t. induction s as [|c s IH]; intros h t; simpl; [done|].
  destruct (rpartition sep s) as [[h'|] t'] eqn:Hr.
  - intros [= <- <-]. destruct (IH _ _ eq_refl) as [-> Hnot].
    split; [reflexivity|assumption].
  - destruct (N.eqb c sep) eqn:Hc; [|done].
    intros [= <- <-]. apply N.eqb_eq in Hc. subst c.
    apply rpartition_None in Hr as [-> Hnot].
    split; [reflexivity|assumption].
Qed.

Lemma rpartition_app sep h t :
  sep ∉ t -> rpartition sep (h ++ sep :: t)%list = (Some h, t).
Proof.
  intros Hnot.
  assert (Ht : rpartition sep t = (None, t)).
  { clear h. induction t as [|c t IH]; simpl; [done|].
    apply not_elem_of_cons in Hnot as [Hc Hnot].
    rewrite (IH Hnot). apply N.eqb_neq in Hc. by rewrite N.eqb_sym, Hc. }
  induction h as [|c h IH]; simpl.
  - rewrite Ht. by rewrite N.eqb_refl.
  - by rewrite IH.
Qed.

Lemma contains_elem_of c s : contains c s = true <-> c ∈ s.
Proof.
  unfold contains. induction s as [|x s IH]; simpl.
  - split; [done|]. intros H. by apply not_elem_of_nil in H.
  - rewrite orb_true_iff, IH, elem_of_cons, N.eqb_eq. done.
Qed.

(** [allowed_file] never raises: the index [1] is only read when the name
    has a dot. *)
Lemma allowed_file_returns filename :
  exists b, allowed_file filename = Returns b.
Proof.
  unfold App.allowed_file.
  destruct (contains 46 filename) eqn:Hc; [|by eexists].
  unfold rsplit1. destruct (rpartition 46 filename) as [[h|] t] eqn:Hr.
  - simpl. by eexists.
  - apply rpartition_None in Hr as [-> Hnot].
    apply contains_elem_of in Hc. done.
Qed.

(** [allowed_file] decides [has_allowed_extension]. *)
Lemma allowed_file_spec filename :
  allowed_file filename = Returns true <-> has_allowed_extension filename.
Proof.
  unfold App.allowed_file, App.has_allowed_extension. split.
  - destruct (contains 46 filename) eqn:Hc; [|done].
    unfold rsplit1. destruct (rpartition 46 filename) as [[h|] t] eqn:Hr; [|done].
    simpl. intros [= Hin]. apply bool_decide_eq_true in Hin.
    apply rpartition_Some in Hr as [-> Hnot]. by exists h, t.
  - intros (stem & ext & -> & Hnot & Hin).
    replace (contains 46 (stem ++ 46%N :: ext)%list) with true.
    2:{ symmetry. apply contains_elem_of, elem_of_app. right. left. }
    unfold rsplit1. rewrite (rpartition_app _ _ _ Hnot). simpl.
    f_equal. by apply bool_decide_eq_true.
Qed.

Lemma allowed_file_false filename :
  ~ has_allowed_extension filename -> allowed_file filename = Returns false.
Proof.
  intros Hno. destruct (allowed_file_returns filename) as [[] Hb]; [|done].
  by apply allowed_file_spec in Hb.
Qed.

(** C4: a request whose form has no file part named "image" is answered
    with status 400 and the error body "No image file provided", and the
    world is left as it was: no file is created in the scratch directory
    (nothing is logged and the model is not called either). *)
Theorem missing_image_rejected (env : Env) (request : Request) (w : World) :
  no_part_named "image" request ->
  predict env request w = (Returns (JError "No image file provided", 400%nat), w).
Proof.
  intros Hno. unfold App.predict.
  by rewrite (contains_key_false _ _ Hno).
Qed.

(** C5: an upload whose file name has no extension in {png, jpg, jpeg},
    compared without regard to case (a name without any dot included), is
    answered with status 400 and the body
    {"error": "Invalid file format. Allowed formats: png, jpg, jpeg"}, and
    the world is left as it was: no file is persisted. *)
Theorem invalid_extension_rejected (env : Env) (request : Request)
    (file : FileStorage) (w : World) :
  getitem "image" (req_files request) = Some file ->
  ~ has_allowed_extension (filename file) ->
  predict env request w =
    (Returns (JError "Invalid file format. Allowed formats: png, jpg, jpeg", 400%nat), w).
Proof.
  intros Hget Hext. unfold App.predict.
  rewrite (getitem_contains_key _ _ _ Hget), Hget. simpl.
  destruct (truthy file); [|done].
  unfold bind, lift. by rewrite (allowed_file_false _ Hext).
Qed.

(** C10: when the part named "image" has the empty string as file name, the
    answer is the 400 invalid-file-format response, not the missing-input
    one; [allowed_file] rejects the empty name as well. *)
Theorem empty_filename_invalid_format (env : Env) (request : Request)
    (file : FileStorage) (w : World) :
  getitem "image" (req_files request) = Some file ->
  filename file = [] ->
  predict env request w =
    (Returns (JError "Invalid file format. Allowed formats: png, jpg, jpeg", 400%nat), w)
  /\ allowed_file (filename file) = Returns false.
Proof.
  intros Hget Hname. split.
  - unfold App.predict.
    rewrite (getitem_contains_key _ _ _ Hget), Hget. simpl.
    unfold truthy. by rewrite Hname.
  - by rewrite Hname.
Qed.

End Validation.

Section Pipeline.

Variable str_lower : ustr -> ustr.
Variable nfkd : ustr -> ustr.
Variable env : Env.

Local Abbreviation allowed_file := (allowed_file str_lower).
Local Abbreviation predict := (predict str_lower nfkd).
Local Abbreviation filepath_of := (filepath_of nfkd).

Ltac unfold_handler :=
  unfold predict_try, predict_except, resize_image, try_except, bind,
    file_save, logging, image_open, image_resize, image_save, model_predict,
    os_remove, os_path_exists, ret, raise, lift, set_fs in *.

(** The scrutinee of an innermost [match] of a term. *)
Ltac inner_scrutinee x :=
  lazymatch x with
  | context [match ?y with _ => _ end] => inner_scrutinee y
  | _ => constr:(x)
  end.

Ltac exec_step :=
  match goal with
  | |- context [<[ ?p := ?x ]> ?m !! ?p] => rewrite (lookup_insert_eq m p x)
  | |- context [match ?x with _ => _ end] =>
      let y := inner_scrutinee x in
      first [ is_var y; destruct y | destruct y eqn:? ]
  end.

Ltac exec := repeat (simpl; exec_step); simpl.

(** How the [try] block ends: before the model is called, with an
    exception; or after one call of the model, on the stored path with the
    resized image on disk.  When the model has returned, the block raises
    because the file has vanished, or because [os.remove] fails and leaves
    the file, or it answers from the results with the file removed. *)
Lemma predict_try_paths file filepath w :
  let '(r, w1) := predict_try env file filepath w in
  (exists e, r = Raises e /\ model_calls w1 = model_calls w)
  \/ (exists img res,
        model_calls w1 = model_calls w ++ [inference_call filepath img res] /\
        match res with
        | Raises e => r = Raises e
        | Returns results =>
            (r = Raises (enoent env filepath) /\ fs w1 !! filepath = None) \/
            (exists e, r = Raises e /\ is_Some (fs w1 !! filepath) /\
                       remove_fails env filepath (fs w1) = Some e) \/
            (r = extract results /\ fs w1 !! filepath = None)
        end).
Proof.
  unfold_handler. exec;
    first
      [ left; eexists; split; reflexivity
      | right; do 2 eexists; split; [reflexivity|]; simpl;
        first [ reflexivity
              | left; split; [reflexivity|assumption]
              | right; left; eexists; split; [reflexivity|]; split; [eauto|assumption]
              | right; right; split; [reflexivity | apply lookup_delete_eq] ] ].
Qed.

(** When writing the upload, decoding it, resizing it and writing the
    resized image all succeed, the model is called once, on the stored path,
    with the resized image on disk. *)
Lemma predict_try_reaches_inference file filepath w sz :
  save_fails env file filepath (fs w) = None ->
  decode env (stream file) = Returns sz ->
  resize_fails env (Decoded (stream file) sz) (224%nat, 224%nat) = None ->
  save_image_fails env (Resized (Decoded (stream file) sz) (224%nat, 224%nat))
    filepath (<[ filepath := Uploaded (stream file) ]> (fs w)) = None ->
  exists res,
    model_calls (predict_try env file filepath w).2 =
      model_calls w ++ [inference_call filepath (Decoded (stream file) sz) res]
    /\ res = (model env filepath
               (<[ filepath := Saved (Resized (Decoded (stream file) sz) (224%nat, 224%nat)) ]>
                  (<[ filepath := Uploaded (stream file) ]> (fs w)))).1.
Proof.
  intros Hsave Hdec Hres Himg. unfold_handler. simpl.
  rewrite Hsave. simpl. rewrite lookup_insert_eq, Hdec. simpl.
  rewrite lookup_insert_eq, Hdec, Hres. simpl. rewrite Himg. simpl.
  destruct (model env filepath _) as [res fs'] eqn:Hm. simpl.
  exists res. split; [|reflexivity].
  rewrite lookup_insert_eq.
  destruct res; simpl; [|reflexivity].
  destruct (fs' !! filepath); simpl; [|reflexivity].
  destruct (remove_fails env filepath fs'); simpl; [reflexivity|].
  destruct (extract a); reflexivity.
Qed.

(** The [except] block logs the exception; then it answers 500 with the
    exception's text when nothing is at the path or [os.remove] removes it,
    and raises what [os.remove] raises otherwise. *)
Lemma predict_except_spec filepath e w :
  let msg := "Error during prediction: " +:+ exn_str e in
  let logged fs' :=
    {| fs := fs'; log := log w ++ [("ERROR", msg)]; model_calls := model_calls w |} in
  predict_except env filepath e w =
    match fs w !! filepath with
    | None => (Returns (JError msg, 500%nat), logged (fs w))
    | Some _ =>
      match remove_fails env filepath (fs w) with
      | None => (Returns (JError msg, 500%nat), logged (delete filepath (fs w)))
      | Some e' => (Raises e', logged (fs w))
      end
    end.
Proof.
  unfold_handler. simpl.
  destruct (fs w !! filepath) as [c|] eqn:Hl; simpl; [|reflexivity].
  rewrite Hl. by destruct (remove_fails env filepath (fs w)).
Qed.

(** The [except] block when the file is gone already or can be removed. *)
Lemma predict_except_answers filepath e w :
  fs w !! filepath = None \/ remove_fails env filepath (fs w) = None ->
  predict_except env filepath e w =
    (Returns (JError ("Error during prediction: " +:+ exn_str e), 500%nat),
     {| fs := delete filepath (fs w);
        log := log w ++ [("ERROR", "Error during prediction: " +:+ exn_str e)];
        model_calls := model_calls w |}).
Proof.
  intros Hok. rewrite predict_except_spec. cbv zeta.
  destruct (fs w !! filepath) as [c|] eqn:Hl.
  - destruct Hok as [?| ->]; [done|reflexivity].
  - by rewrite delete_id.
Qed.

(** The [except] block when [os.remove] fails. *)
Lemma predict_except_raises filepath e e' w :
  is_Some (fs w !! filepath) -> remove_fails env filepath (fs w) = Some e' ->
  predict_except env filepath e w =
    (Raises e',
     {| fs := fs w;
        log := log w ++ [("ERROR", "Error during prediction: " +:+ exn_str e)];
        model_calls := model_calls w |}).
Proof.
  intros [c Hc] Hrm. rewrite predict_except_spec. cbv zeta. by rewrite Hc, Hrm.
Qed.

(** However the [except] block ends: it has called no model; when it
    returns nothing is left at the path; when it raises, [os.remove] has
    raised that exception and the entry is still there. *)
Lemma predict_except_ends filepath e w :
  exists r w',
    predict_except env filepath e w = (r, w') /\
    model_calls w' = model_calls w /\
    log w' = log w ++ [("ERROR", "Error during prediction: " +:+ exn_str e)] /\
    match r with
    | Returns resp =>
        resp = (JError ("Error during prediction: " +:+ exn_str e), 500%nat) /\
        fs w' = delete filepath (fs w) /\ fs w' !! filepath = None
    | Raises e' =>
        fs w' = fs w /\ is_Some (fs w' !! filepath) /\
        remove_fails env filepath (fs w') = Some e'
    end.
Proof.
  rewrite predict_except_spec. cbv zeta.
  destruct (fs w !! filepath) as [c|] eqn:Hl;
    [destruct (remove_fails env filepath (fs w)) as [e'|] eqn:Hrm|];
    do 2 eexists; (split; [reflexivity|]); simpl; (split; [reflexivity|]);
    (split; [reflexivity|]).
  - split; [reflexivity|]. split; [by eexists|exact Hrm].
  - split; [reflexivity|]. split; [reflexivity|]. apply lookup_delete_eq.
  - split; [reflexivity|]. split; [by rewrite delete_id|exact Hl].
Qed.

Lemma has_allowed_extension_truthy file :
  has_allowed_extension str_lower (filename file) -> truthy file = true.
Proof.
  intros (stem & ext & Hname & _). unfold truthy. rewrite Hname.
  by destruct stem.
Qed.

(** A request that passes both validations runs the [try] block under the
    [except] block. *)
Lemma predict_valid request file w :
  getitem "image" (req_files request) = Some file ->
  has_allowed_extension str_lower (filename file) ->
  predict env request w =
    try_except (predict_try env file (filepath_of env file))
               (predict_except env (filepath_of env file)) w.
Proof.
  intros Hget Hext. unfold App.predict.
  rewrite (getitem_contains_key _ _ _ Hget), Hget. simpl.
  rewrite (has_allowed_extension_truthy _ Hext).
  apply allowed_file_spec in Hext. unfold bind, lift. by rewrite Hext.
Qed.

(** However a processed request ends: when the handler returns, nothing is
    left at the upload's path; when an exception leaves it, [os.remove] has
    raised that exception and the entry is still there. *)
Lemma predict_ends request file w :
  getitem "image" (req_files request) = Some file ->
  has_allowed_extension str_lower (filename file) ->
  exists r w',
    predict env request w = (r, w') /\
    match r with
    | Returns _ => fs w' !! filepath_of env file = None
    | Raises e' =>
        is_Some (fs w' !! filepath_of env file) /\
        remove_fails env (filepath_of env file) (fs w') = Some e'
    end.
Proof.
  intros Hget Hext. rewrite (predict_valid _ _ _ Hget Hext).
  unfold try_except.
  pose proof (predict_try_paths file (filepath_of env file) w) as Hpaths.
  destruct (predict_try env file (filepath_of env file) w) as [[resp|e] w1].
  - exists (Returns resp), w1. split; [reflexivity|].
    destruct Hpaths as [(e & He & _)|(img & res & _ & Hres)]; [discriminate|].
    destruct res as [results|e]; [|discriminate].
    destruct Hres as [[He _]|[(e & He & _)|[_ Hfs]]]; [discriminate|discriminate|exact Hfs].
  - destruct (predict_except_ends (filepath_of env file) e w1)
      as (r & w' & -> & _ & _ & Hr).
    exists r, w'. split; [reflexivity|].
    destruct r as [resp|e']; [by destruct Hr as (_ & _ & ?)|by destruct Hr as (_ & ? & ?)].
Qed.

(** The successful run: when the upload is saved, decoded, resized and
    written back, the model returns a list whose first result carries the
    vector [probs] and leaves the file in place, and [os.remove] removes
    it. *)
Lemma predict_success request file w sz probs rest fs' :
  let filepath := filepath_of env file in
  let resized := Resized (Decoded (stream file) sz) (224%nat, 224%nat) in
  let uploaded := <[ filepath := Uploaded (stream file) ]> (fs w) in
  let results := ResultList (Probs (Returns probs) :: rest) in
  getitem "image" (req_files request) = Some file ->
  has_allowed_extension str_lower (filename file) ->
  save_fails env file filepath (fs w) = None ->
  decode env (stream file) = Returns sz ->
  resize_fails env (Decoded (stream file) sz) (224%nat, 224%nat) = None ->
  save_image_fails env resized filepath uploaded = None ->
  model env filepath (<[ filepath := Saved resized ]> uploaded) = (Returns results, fs') ->
  is_Some (fs' !! filepath) ->
  remove_fails env filepath fs' = None ->
  predict env request w =
    (Returns (JPredictions (predictions probs), 200%nat),
     {| fs := delete filepath fs';
        log := log w ++
               [("INFO", "Image saved at: " +:+ filepath);
                ("INFO", "Original image size: " +:+ str_size sz);
                ("INFO", "Image resized to: (224, 224)")];
        model_calls :=
          model_calls w ++
          [inference_call filepath (Decoded (stream file) sz) (Returns results)] |}).
Proof.
  intros filepath resized uploaded results Hget Hext Hsave Hdec Hres Himg Hmodel
    [c Hc] Hrm.
  rewrite (predict_valid _ _ _ Hget Hext). fold filepath.
  unfold_handler. simpl.
  rewrite Hsave. simpl. rewrite lookup_insert_eq, Hdec. simpl.
  rewrite lookup_insert_eq, Hdec, Hres. simpl.
  fold uploaded. fold resized. rewrite Himg. simpl.
  rewrite Hmodel. simpl. rewrite Hc, Hrm. simpl.
  rewrite lookup_insert_eq. unfold inference_call.
  rewrite <- !app_assoc. reflexivity.
Qed.


(** C2: for a request that passes both validations (so that
    the upload is written to the scratch directory), whenever the handler
    returns a response, of any status, no file is left at the path the
    upload was stored at; when [os.remove] does not fail the handler does
    return a response, on every path; and when an exception leaves the
    handler instead, it is the one [os.remove] raised in the [except]
    block, and the entry is still at the path. *)
Theorem scratch_file_removed (request : Request) (file : FileStorage) (w : World) :
  getitem "image" (req_files request) = Some file ->
  has_allowed_extension str_lower (filename file) ->
  let filepath := filepath_of env file in
  (forall resp w', predict env request w = (Returns resp, w') ->
                   fs w' !! filepath = None)
  /\ (removal_succeeds env filepath ->
      exists resp w', predict env request w = (Returns resp, w') /\
                      fs w' !! filepath = None)
  /\ (forall e w', predict env request w = (Raises e, w') ->
                   is_Some (fs w' !! filepath) /\
                   remove_fails env filepath (fs w') = Some e).
Proof.
  intros Hget Hext filepath.
  destruct (predict_ends request file w Hget Hext) as (r & w1 & Hrun & Hr).
  fold filepath in Hr. rewrite Hrun. split; [|split].
  - intros resp w' [= -> ->]. exact Hr.
  - intros Hrm. destruct r as [resp|e].
    + by exists resp, w1.
    + destruct Hr as [_ Hr]. rewrite (Hrm (fs w1)) in Hr. discriminate.
  - intros e w' [= -> ->]. exact Hr.
Qed.

(** What the [try] block does when one of its steps, in order, is the first
    to fail. *)
Lemma try_raises_on_save file filepath w e fs' :
  save_fails env file filepath (fs w) = Some (e, fs') ->
  (predict_try env file filepath w).1 = Raises e.
Proof. intros Hsave. unfold_handler. simpl. by rewrite Hsave. Qed.

Lemma try_raises_on_open file filepath w e :
  save_fails env file filepath (fs w) = None ->
  decode env (stream file) = Raises e ->
  (predict_try env file filepath w).1 = Raises e.
Proof.
  intros Hsave Hdec. unfold_handler. simpl.
  rewrite Hsave. simpl. by rewrite lookup_insert_eq, Hdec.
Qed.

Lemma try_raises_on_resize file filepath w sz e :
  save_fails env file filepath (fs w) = None ->
  decode env (stream file) = Returns sz ->
  resize_fails env (Decoded (stream file) sz) (224%nat, 224%nat) = Some e \/
  (resize_fails env (Decoded (stream file) sz) (224%nat, 224%nat) = None /\
   exists fs',
     save_image_fails env (Resized (Decoded (stream file) sz) (224%nat, 224%nat))
       filepath (<[ filepath := Uploaded (stream file) ]> (fs w)) = Some (e, fs')) ->
  (predict_try env file filepath w).1 =
    Raises (Exn "RuntimeError" ("Error resizing image: " +:+ exn_str e)).
Proof.
  intros Hsave Hdec Hres. unfold_handler. simpl.
  rewrite Hsave. simpl. rewrite lookup_insert_eq, Hdec. simpl.
  rewrite lookup_insert_eq, Hdec.
  destruct Hres as [Hres|[Hres [fs' Himg]]]; rewrite Hres; simpl; [done|].
  by rewrite Himg.
Qed.

Lemma try_raises_on_inference file filepath w sz e fs' :
  save_fails env file filepath (fs w) = None ->
  decode env (stream file) = Returns sz ->
  resize_fails env (Decoded (stream file) sz) (224%nat, 224%nat) = None ->
  save_image_fails env (Resized (Decoded (stream file) sz) (224%nat, 224%nat))
    filepath (<[ filepath := Uploaded (stream file) ]> (fs w)) = None ->
  model env filepath
    (<[ filepath := Saved (Resized (Decoded (stream file) sz) (224%nat, 224%nat)) ]>
       (<[ filepath := Uploaded (stream file) ]> (fs w))) = (Raises e, fs') ->
  (predict_try env file filepath w).1 = Raises e.
Proof.
  intros Hsave Hdec Hres Himg Hmodel. unfold_handler. simpl.
  rewrite Hsave. simpl. rewrite lookup_insert_eq, Hdec. simpl.
  rewrite lookup_insert_eq, Hdec, Hres. simpl. rewrite Himg. simpl.
  by rewrite Hmodel.
Qed.

(** C3: for a request that passes both validations, whenever
    the [try] block raises an exception [e], the handler catches it and
    logs it.  When nothing is left at the upload's path, or [os.remove]
    removes what is there, the handler leaves no file at the path and
    answers 500 with the error string "Error during prediction: " followed
    by [str(e)].  When [os.remove] fails in the [except] block, the
    exception it raises leaves the handler, the entry stays and no response
    is returned.  No other exception leaves the handler: it returns, or it
    raises what [os.remove] raised.  And the [try] block does raise when
    saving the upload, opening it, resizing it (where the exception is
    wrapped in a [RuntimeError] whose text ends with the original one) or
    running the model fails. *)
Theorem processing_failure_caught (request : Request) (file : FileStorage)
    (w : World) :
  getitem "image" (req_files request) = Some file ->
  has_allowed_extension str_lower (filename file) ->
  let filepath := filepath_of env file in
  let resized sz := Resized (Decoded (stream file) sz) (224%nat, 224%nat) in
  let uploaded := <[ filepath := Uploaded (stream file) ]> (fs w) in
  let logged e w1 := log w1 ++ [("ERROR", "Error during prediction: " +:+ exn_str e)] in
  (forall e w1,
     predict_try env file filepath w = (Raises e, w1) ->
     (fs w1 !! filepath = None \/ remove_fails env filepath (fs w1) = None ->
      predict env request w =
        (Returns (JError ("Error during prediction: " +:+ exn_str e), 500%nat),
         {| fs := delete filepath (fs w1); log := logged e w1;
            model_calls := model_calls w1 |})
      /\ delete filepath (fs w1) !! filepath = None)
     /\ (forall e',
           is_Some (fs w1 !! filepath) ->
           remove_fails env filepath (fs w1) = Some e' ->
           predict env request w =
             (Raises e',
              {| fs := fs w1; log := logged e w1; model_calls := model_calls w1 |})))
  /\ (exists r w',
        predict env request w = (r, w') /\
        forall e', r = Raises e' ->
                   is_Some (fs w' !! filepath) /\
                   remove_fails env filepath (fs w') = Some e')
  /\ (forall e fs',
        save_fails env file filepath (fs w) = Some (e, fs') ->
        (predict_try env file filepath w).1 = Raises e)
  /\ (forall e,
        save_fails env file filepath (fs w) = None ->
        decode env (stream file) = Raises e ->
        (predict_try env file filepath w).1 = Raises e)
  /\ (forall sz e,
        save_fails env file filepath (fs w) = None ->
        decode env (stream file) = Returns sz ->
        resize_fails env (Decoded (stream file) sz) (224%nat, 224%nat) = Some e \/
        (resize_fails env (Decoded (stream file) sz) (224%nat, 224%nat) = None /\
         exists fs', save_image_fails env (resized sz) filepath uploaded = Some (e, fs')) ->
        (predict_try env file filepath w).1 =
          Raises (Exn "RuntimeError" ("Error resizing image: " +:+ exn_str e)))
  /\ (forall sz e fs',
        save_fails env file filepath (fs w) = None ->
        decode env (stream file) = Returns sz ->
        resize_fails env (Decoded (stream file) sz) (224%nat, 224%nat) = None ->
        save_image_fails env (resized sz) filepath uploaded = None ->
        model env filepath (<[ filepath := Saved (resized sz) ]> uploaded) = (Raises e, fs') ->
        (predict_try env file filepath w).1 = Raises e).
Proof.
  intros Hget Hext filepath resized uploaded logged.
  split; [|split; [|split; [|split; [|split]]]].
  - intros e w1 Htry. rewrite (predict_valid _ _ _ Hget Hext).
    unfold try_except. fold filepath. rewrite Htry. split.
    + intros Hok. split; [by apply predict_except_answers|apply lookup_delete_eq].
    + intros e' Hsome Hrm. by apply predict_except_raises.
  - destruct (predict_ends request file w Hget Hext) as (r & w' & Hrun & Hr).
    exists r, w'. split; [exact Hrun|]. by intros e' ->.
  - apply try_raises_on_save.
  - apply try_raises_on_open.
  - apply try_raises_on_resize.
  - apply try_raises_on_inference.
Qed.

(** C6: when the model, called for a request, returns results that carry no
    probability vector for the first result (not a list, an empty list, a
    first result without [probs], or with [probs] being [None]), and
    [os.remove] does not fail, the answer has status 500 and an error body,
    never a predictions body.  The error string is "Unable to process the
    image", except for an empty list, where [results[0]] raises and the
    [except] block answers (and except when the file has vanished before
    [os.remove]). *)
Theorem no_probability_vector_is_500 (request : Request) (file : FileStorage)
    (w : World) (call : model_call) (results : results) :
  getitem "image" (req_files request) = Some file ->
  has_allowed_extension str_lower (filename file) ->
  removal_succeeds env (filepath_of env file) ->
  model_calls (predict env request w).2 = model_calls w ++ [call] ->
  outcome call = Returns results ->
  no_probability_vector results = true ->
  exists msg,
    (predict env request w).1 = Returns (JError msg, 500%nat) /\
    (msg = "Unable to process the image" \/
     msg = "Error during prediction: list index out of range" \/
     msg = "Error during prediction: " +:+ exn_str (enoent env (filepath_of env file))).
Proof.
  intros Hget Hext Hrm. rewrite (predict_valid _ _ _ Hget Hext).
  unfold try_except.
  pose proof (predict_try_paths file (filepath_of env file) w) as Hpaths.
  destruct (predict_try env file (filepath_of env file) w) as [r w1].
  assert (Hcalls : forall w2, model_calls w2 = model_calls w1 ->
            model_calls w2 = model_calls w ++ [call] ->
            outcome call = Returns results ->
            r = Raises (enoent env (filepath_of env file)) \/ r = extract results).
  { intros w2 Hw2 Hc. rewrite Hw2 in Hc.
    destruct Hpaths as [(e & _ & Hsame)|(img & res & Hone & Hres)].
    - rewrite Hsame in Hc. apply (f_equal length) in Hc.
      rewrite length_app in Hc. simpl in Hc. lia.
    - rewrite Hone in Hc. apply app_inv_head in Hc. injection Hc as <-.
      simpl. intros ->.
      destruct Hres as [[? _]|[(e & _ & _ & He)|[? _]]]; auto.
      rewrite (Hrm (fs w1)) in He. discriminate. }
  destruct r as [resp|e]; simpl.
  - intros Hc Hout Hno.
    destruct (Hcalls w1 eq_refl Hc Hout) as [?|Hr']; [discriminate|].
    exists "Unable to process the image". split; [|by left].
    rewrite Hr'. destruct results as [|[|[| |?] ?]]; try discriminate; reflexivity.
  - rewrite predict_except_answers by (right; apply Hrm). simpl.
    intros Hc Hout Hno.
    eexists. split; [reflexivity|].
    destruct (Hcalls _ eq_refl Hc Hout) as [[= ->]|Hr']; [by right; right|].
    destruct results as [|[|[| |?] ?]]; try discriminate.
    injection Hr' as ->. right. by left.
Qed.

(** C8: the model is called at most once per request, and only on the path
    the upload was stored at, at a moment when the file at that path is an
    image of 224 x 224 written by the resize step; and when writing the
    upload, decoding it, resizing it and writing it back all succeed, the
    model is called, with the upload resized to 224 x 224 stored in place. *)
Theorem inference_sees_resized_image (request : Request) (file : FileStorage)
    (w : World) :
  getitem "image" (req_files request) = Some file ->
  has_allowed_extension str_lower (filename file) ->
  let filepath := filepath_of env file in
  let w' := (predict env request w).2 in
  (exists calls,
     model_calls w' = model_calls w ++ calls /\ (length calls <= 1)%nat /\
     forall call, call ∈ calls ->
       source call = filepath /\
       exists img, seen call = Some (Saved (Resized img (224%nat, 224%nat))) /\
                   seen call ≫= saved_size = Some (224%nat, 224%nat))
  /\ (forall sz,
        save_fails env file filepath (fs w) = None ->
        decode env (stream file) = Returns sz ->
        resize_fails env (Decoded (stream file) sz) (224%nat, 224%nat) = None ->
        save_image_fails env (Resized (Decoded (stream file) sz) (224%nat, 224%nat))
          filepath (<[ filepath := Uploaded (stream file) ]> (fs w)) = None ->
        exists res,
          model_calls w' =
            model_calls w ++ [inference_call filepath (Decoded (stream file) sz) res]).
Proof.
  intros Hget Hext filepath w'.
  assert (Hw' : model_calls w' = model_calls (predict_try env file filepath w).2).
  { unfold w'. rewrite (predict_valid _ _ _ Hget Hext). unfold try_except.
    fold filepath.
    destruct (predict_try env file filepath w) as [[resp|e] w1]; [reflexivity|].
    destruct (predict_except_ends filepath e w1) as (r & w2 & -> & Hcalls & _).
    exact Hcalls. }
  split.
  - rewrite Hw'.
    pose proof (predict_try_paths file filepath w) as Hpaths.
    destruct (predict_try env file filepath w) as [r w1]. simpl.
    destruct Hpaths as [(e & _ & Hsame)|(img & res & Hone & _)].
    + exists []. rewrite app_nil_r. split; [done|]. split; [simpl; lia|].
      intros call Hin. by apply elem_of_nil in Hin.
    + exists [inference_call filepath img res]. split; [done|].
      split; [simpl; lia|].
      intros call Hin. apply list_elem_of_singleton in Hin as ->.
      split; [reflexivity|]. by exists img.
  - intros sz Hsave Hdec Hres Himg. rewrite Hw'.
    destruct (predict_try_reaches_inference file filepath w sz Hsave Hdec Hres Himg)
      as (res & Hcalls & _).
    by exists res.
Qed.

End Pipeline.

Section Sanitizing.

Variable str_lower : ustr -> ustr.
Variable nfkd : ustr -> ustr.
Variable env : Env.

Local Abbreviation filepath_of := (filepath_of nfkd).

Lemma lstrip_incl chars s x : In x (lstrip chars s) -> In x s.
Proof.
  induction s as [|c s IH]; simpl; [done|].
  destruct (in_chars chars c); [|done]. intros H. right. by apply IH.
Qed.

Lemma rstrip_incl chars s x : In x (rstrip chars s) -> In x s.
Proof.
  unfold rstrip. intros H. rewrite <- in_rev in H. apply lstrip_incl in H.
  by rewrite <- in_rev in H.
Qed.

Lemma strip_incl chars s x : In x (strip chars s) -> In x s.
Proof.
  unfold strip. intros H. apply rstrip_incl in H. by apply lstrip_incl in H.
Qed.

Lemma lstrip_keeps chars s x :
  In x s -> in_chars chars x = false -> In x (lstrip chars s).
Proof.
  intros Hin Hx. induction s as [|c s IH]; simpl; [done|].
  destruct (in_chars chars c) eqn:Hc; [|done].
  destruct Hin as [->|Hin]; [congruence|]. by apply IH.
Qed.

Lemma strip_keeps chars s x :
  In x s -> in_chars chars x = false -> In x (strip chars s).
Proof.
  intros Hin Hx. unfold strip, rstrip. rewrite <- in_rev.
  apply lstrip_keeps; [|done]. rewrite <- in_rev.
  by apply lstrip_keeps.
Qed.

(** What [lstrip] returns does not start with a stripped character. *)
Lemma lstrip_head chars s :
  match lstrip chars s with
  | [] => True
  | c :: _ => in_chars chars c = false
  end.
Proof.
  induction s as [|c s IH]; simpl; [done|].
  destruct (in_chars chars c) eqn:Hc; [done|]. exact Hc.
Qed.

(** [rstrip] returns a prefix, which keeps the first character when that
    character is not stripped. *)
Lemma rstrip_cons chars c s :
  in_chars chars c = false -> exists s', rstrip chars (c :: s) = c :: s'.
Proof.
  intros Hc. unfold rstrip. simpl.
  assert (H : forall t, exists t', lstrip chars (t ++ [c]) = t' ++ [c]).
  { intros t. induction t as [|x t [t' IH]]; simpl.
    - rewrite Hc. by exists [].
    - destruct (in_chars chars x); [by exists t'|].
      by exists (x :: t). }
  destruct (H (rev s)) as [t' ->]. rewrite rev_app_distr. simpl. by eexists.
Qed.

Lemma strip_head chars s :
  match strip chars s with
  | [] => True
  | c :: _ => in_chars chars c = false
  end.
Proof.
  unfold strip. pose proof (lstrip_head chars s) as Hl.
  destruct (lstrip chars s) as [|c t]; [done|].
  destruct (rstrip_cons chars c t Hl) as [s' ->]. exact Hl.
Qed.

Lemma split_from_keeps cur s x :
  In x cur \/ In x s -> is_space x = false ->
  In x (concat (split_from cur s)).
Proof.
  intros Hin Hx. revert cur Hin.
  induction s as [|c s IH]; intros cur Hin; cbn [split_from].
  - destruct Hin as [Hin|[]]. destruct cur as [|y cur]; [done|].
    cbn [concat]. rewrite app_nil_r, <- in_rev. exact Hin.
  - destruct (is_space c) eqn:Hc.
    + destruct cur as [|y cur].
      * apply IH. destruct Hin as [[]|[->|Hin]]; [congruence|by right].
      * cbn [concat]. apply in_app_iff.
        destruct Hin as [Hin|[->|Hin]]; [|congruence|].
        -- left. rewrite <- in_rev. exact Hin.
        -- right. apply IH. by right.
    + apply IH. destruct Hin as [Hin|[->|Hin]].
      * left. by right.
      * left. by left.
      * by right.
Qed.

Lemma join_keeps sep parts x : In x (concat parts) -> In x (join sep parts).
Proof.
  induction parts as [|p ps IH]; simpl; [done|].
  intros Hin. apply in_app_iff in Hin.
  destruct ps as [|p' ps].
  - destruct Hin as [Hin|[]]. exact Hin.
  - apply in_app_iff. destruct Hin as [Hin|Hin]; [by left|].
    right. apply in_app_iff. right. by apply IH.
Qed.

(** Every character of a sanitized name is a letter, a digit, or one of
    [_], [.], [-]; and the name does not start with [.] or [_]. *)
Lemma secure_filename_chars filename :
  let name := list_ascii_of_string (secure_filename nfkd filename) in
  Forall (fun c => filename_char c = true) name /\
  match name with
  | [] => True
  | c :: _ => c <> "."%char /\ c <> "_"%char
  end.
Proof.
  unfold secure_filename. cbv zeta.
  rewrite list_ascii_of_string_of_list_ascii.
  set (l := List.filter filename_char _). split.
  - apply Forall_forall. intros c Hc. apply list_elem_of_In in Hc.
    apply strip_incl in Hc. unfold l in Hc. by apply filter_In in Hc as [_ ?].
  - pose proof (strip_head ["."%char; "_"%char] l) as Hh.
    destruct (strip _ l) as [|c t]; [done|].
    simpl in Hh. apply orb_false_iff in Hh as [H1 H2].
    apply orb_false_iff in H2 as [H2 _].
    apply Ascii.eqb_neq in H1, H2. done.
Qed.

(** A character of the client's name that is an ASCII letter or digit
    survives sanitizing, provided normalization keeps it. *)
Lemma secure_filename_keeps filename (c : N) :
  In c (nfkd filename) ->
  (48 <= c <= 57 \/ 65 <= c <= 90 \/ 97 <= c <= 122)%N ->
  In (ascii_of_N c) (list_ascii_of_string (secure_filename nfkd filename)).
Proof.
  intros Hin Hc. unfold secure_filename. cbv zeta.
  rewrite list_ascii_of_string_of_list_ascii.
  assert (Hn : N_of_ascii (ascii_of_N c) = c).
  { apply N_ascii_embedding. lia. }
  apply strip_keeps.
  2:{ simpl. rewrite orb_false_r. apply orb_false_iff.
      split; apply Ascii.eqb_neq; intros Heq;
        apply (f_equal N_of_ascii) in Heq; rewrite Hn in Heq; simpl in Heq; lia. }
  apply filter_In. split.
  2:{ unfold filename_char. rewrite Hn.
      destruct Hc as [H|[H|H]].
      - replace ((48 <=? c) && (c <=? 57))%N with true
          by (symmetry; apply andb_true_iff; split; apply N.leb_le; lia).
        by rewrite ?orb_true_r.
      - replace ((65 <=? c) && (c <=? 90))%N with true
          by (symmetry; apply andb_true_iff; split; apply N.leb_le; lia).
        done.
      - replace ((97 <=? c) && (c <=? 122))%N with true
          by (symmetry; apply andb_true_iff; split; apply N.leb_le; lia).
        by rewrite ?orb_true_r. }
  apply join_keeps, split_from_keeps.
  2:{ unfold is_space. rewrite Hn. apply orb_false_iff.
      split; apply andb_false_iff;
        right; apply N.leb_gt; lia. }
  right. unfold replace_char. apply in_map_iff. exists (ascii_of_N c). split.
  - destruct (Ascii.eqb (ascii_of_N c) "/") eqn:Heq; [|done].
    apply Ascii.eqb_eq in Heq. apply (f_equal N_of_ascii) in Heq.
    rewrite Hn in Heq. simpl in Heq. lia.
  - unfold encode_ascii_ignore. apply in_map, filter_In. split; [done|].
    unfold is_ascii. apply N.ltb_lt. lia.
Qed.

Lemma endswith_sep_app s t : t <> "" -> endswith_sep (s +:+ t) = endswith_sep t.
Proof.
  intros Ht. induction s as [|c s IH]; [reflexivity|].
  simpl. destruct (s +:+ t) eqn:Hst; [|exact IH].
  destruct s; cbv [String.app] in Hst; [congruence|discriminate].
Qed.

Lemma UPLOADS_DIR_shape :
  UPLOADS_DIR env <> "" /\ endswith_sep (UPLOADS_DIR env) = false.
Proof.
  unfold UPLOADS_DIR, path_join. simpl.
  destruct (String.eqb (getcwd env) "" || endswith_sep (getcwd env)).
  - split; [by destruct (getcwd env)|]. by rewrite endswith_sep_app.
  - split; [by destruct (getcwd env)|]. by rewrite endswith_sep_app.
Qed.

Lemma path_join_component dir name :
  dir <> "" -> endswith_sep dir = false -> startswith_sep name = false ->
  path_join dir name = dir +:+ "/" +:+ name.
Proof.
  intros Hd He Hs. unfold path_join. rewrite Hs, He.
  apply String.eqb_neq in Hd. by rewrite Hd.
Qed.

Section UnicodeTables.

(** On ASCII text [str.lower] maps the capital letters to the small ones. *)
Hypothesis lower_ascii :
  forall s, Forall (fun c => is_ascii c = true) s -> str_lower s = map ascii_lower s.

(** No text with a character outside ASCII has "png", "jpg" or "jpeg" as its
    lower-case form. *)
Hypothesis lower_non_ascii :
  forall s, str_lower s ∈ ALLOWED_EXTENSIONS -> Forall (fun c => is_ascii c = true) s.

(** NFKD normalization leaves the ASCII characters of a text in it. *)
Hypothesis nfkd_keeps_ascii :
  forall s c, In c s -> is_ascii c = true -> In c (nfkd s).

(** An accepted file name holds a letter, in its extension. *)
Lemma allowed_extension_letter filename :
  has_allowed_extension str_lower filename ->
  exists c, In c filename /\ (65 <= c <= 90 \/ 97 <= c <= 122)%N.
Proof.
  intros (stem & ext & -> & _ & Hin).
  pose proof (lower_non_ascii _ Hin) as Hascii.
  rewrite (lower_ascii _ Hascii) in Hin.
  assert (Hc : exists c t, ext = c :: t /\ (ascii_lower c = 112 \/ ascii_lower c = 106)%N).
  { unfold ALLOWED_EXTENSIONS in Hin. set_unfold in Hin.
    destruct ext as [|c t]; [by destruct Hin as [[H|H]|H]|].
    exists c, t. split; [done|].
    destruct Hin as [[H|H]|H]; injection H as H _; auto. }
  destruct Hc as (c & t & -> & Hc). exists c. split.
  - apply in_app_iff. right. right. by left.
  - unfold ascii_lower in Hc.
    destruct ((65 <=? c) && (c <=? 90))%N eqn:Hup.
    + apply andb_true_iff in Hup as [H1 H2].
      apply N.leb_le in H1, H2. lia.
    + lia.
Qed.

(** C7: for a file name that passes the extension check, the sanitized name
    is made of letters, digits, [_], [.] and [-] only, and the path the
    upload is written to is the uploads directory, a separator, and that
    name, which is not empty, not ["."], not [".."] and holds no separator:
    the path lies inside the uploads directory, whatever the client's file
    name holds. *)
Theorem stored_inside_uploads (file : FileStorage) :
  has_allowed_extension str_lower (filename file) ->
  let name := secure_filename nfkd (filename file) in
  Forall (fun c => filename_char c = true) (list_ascii_of_string name) /\
  filepath_of env file = UPLOADS_DIR env +:+ "/" +:+ name /\
  directly_inside (UPLOADS_DIR env) (filepath_of env file).
Proof.
  intros Hext name.
  destruct (secure_filename_chars (filename file)) as [Hchars Hhead].
  fold name in Hchars, Hhead.
  destruct (allowed_extension_letter _ Hext) as (c & Hc & Hletter).
  assert (Hin : In (ascii_of_N c) (list_ascii_of_string name)).
  { apply secure_filename_keeps; [|lia].
    apply nfkd_keeps_ascii; [done|]. unfold is_ascii. apply N.ltb_lt. lia. }
  assert (Hslash : ~ In "/"%char (list_ascii_of_string name)).
  { intros H. apply list_elem_of_In in H.
    by apply (proj1 (Forall_forall _ _) Hchars) in H. }
  assert (Hpath : filepath_of env file = UPLOADS_DIR env +:+ "/" +:+ name).
  { unfold App.filepath_of. fold name.
    destruct UPLOADS_DIR_shape as [Hne Hend].
    apply path_join_component; [done|done|].
    destruct name as [|a name']; [done|]. simpl in Hslash.
    unfold startswith_sep.
    destruct (Ascii.eqb_spec a "/") as [->|Hne']; [tauto|].
    destruct a as [[] [] [] [] [] [] [] []]; try reflexivity. done. }
  split; [exact Hchars|]. split; [exact Hpath|].
  exists name. split; [exact Hpath|].
  destruct name as [|a name']; [done|]. simpl in Hhead.
  repeat split; try done.
  - intros [= -> _]. tauto.
  - intros [= -> _]. tauto.
Qed.

End UnicodeTables.

End Sanitizing.

End Props.

(** * The properties on concrete requests *)

Module Witness.
Import Py Numpy Labels Werkzeug Os Pil Model Sys App Frame Scenario MoreScenarios Props.

(** The ASCII tables of the scenarios behave as the Unicode ones must. *)
Lemma ascii_tables_lower_ascii s :
  Forall (fun c => is_ascii c = true) s -> ascii_str_lower s = map ascii_lower s.
Proof. reflexivity. Qed.

Lemma ascii_lower_is_ascii c : is_ascii (ascii_lower c) = true -> is_ascii c = true.
Proof.
  unfold ascii_lower, is_ascii.
  destruct ((65 <=? c) && (c <=? 90))%N eqn:Hup; [|done].
  apply andb_true_iff in Hup as [_ H]. apply N.leb_le in H.
  intros _. apply N.ltb_lt. lia.
Qed.

Lemma ascii_tables_lower_non_ascii s :
  ascii_str_lower s ∈ ALLOWED_EXTENSIONS -> Forall (fun c => is_ascii c = true) s.
Proof.
  intros Hin.
  assert (Hall : Forall (fun c => is_ascii c = true) (ascii_str_lower s)).
  { unfold ALLOWED_EXTENSIONS in Hin. set_unfold in Hin.
    destruct Hin as [[->| ->]| ->]; repeat constructor. }
  unfold ascii_str_lower in Hall. apply Forall_fmap in Hall.
  eapply Forall_impl; [exact Hall|]. intros c Hc. by apply ascii_lower_is_ascii.
Qed.

Lemma ascii_tables_nfkd s c : In c s -> is_ascii c = true -> In c (ascii_nfkd s).
Proof. by intros. Qed.

Lemma happy_jpg_allowed : has_allowed_extension ascii_str_lower (u "happy.jpg").
Proof. apply allowed_file_spec. vm_compute. reflexivity. Qed.

Lemma notes_txt_not_allowed : ~ has_allowed_extension ascii_str_lower (u "notes.txt").
Proof. intros H. apply allowed_file_spec in H. vm_compute in H. discriminate. Qed.


Lemma scratch_file_removed_witness :
  let env := mock_env failing_model in
  let ended := handle env (upload "happy.jpg") in
  (forall resp w', ended = (Returns resp, w') -> fs w' !! happy_path = None)
  /\ (removal_succeeds env happy_path ->
      exists resp w', ended = (Returns resp, w') /\ fs w' !! happy_path = None)
  /\ (forall e w', ended = (Raises e, w') ->
                   is_Some (fs w' !! happy_path) /\
                   remove_fails env happy_path (fs w') = Some e).
Proof.
  exact (scratch_file_removed ascii_str_lower ascii_nfkd (mock_env failing_model)
           (upload "happy.jpg") happy_file empty_world eq_refl happy_jpg_allowed).
Defined.

(** In a deployment whose uploads directory is not writable the upload is
    written over the file that has its name, and [os.remove] fails: the
    exception leaves the handler and the resized upload stays on disk. *)
Lemma upload_left_behind :
  let env := readonly_env (happy_results float32 float32) in
  let ended := predict ascii_str_lower ascii_nfkd env (upload "happy.jpg") world_with_leftover in
  (file_save env happy_file happy_path world_with_leftover).1 = Returns tt
  /\ ended.1 = Raises (permission_denied happy_path)
  /\ fs ended.2 !! happy_path = Some (Saved happy_resized).
Proof. cbv zeta. split; [|split]; vm_compute; reflexivity. Qed.

Lemma missing_image_witness :
  handle (mock_env (happy_results float32 float32))
         {| req_files := [("photo", happy_file)] |} =
  (Returns (JError "No image file provided", 400%nat), empty_world).
Proof.
  apply (missing_image_rejected ascii_str_lower ascii_nfkd).
  intros file Hin. apply list_elem_of_singleton in Hin. discriminate Hin.
Defined.

Lemma invalid_extension_witness :
  handle (mock_env (happy_results float32 float32)) (upload "notes.txt") =
  (Returns (JError "Invalid file format. Allowed formats: png, jpg, jpeg", 400%nat),
   empty_world).
Proof.
  apply (invalid_extension_rejected ascii_str_lower ascii_nfkd _ _
           {| filename := u "notes.txt"; stream := [x89; x50] |}).
  - reflexivity.
  - exact notes_txt_not_allowed.
Defined.

Lemma empty_filename_witness :
  handle (mock_env (happy_results float32 float32)) (upload "") =
  (Returns (JError "Invalid file format. Allowed formats: png, jpg, jpeg", 400%nat),
   empty_world)
  /\ allowed_file ascii_str_lower [] = Returns false.
Proof.
  apply (empty_filename_invalid_format ascii_str_lower ascii_nfkd _ _
           {| filename := []; stream := [x89; x50] |}); reflexivity.
Defined.

Lemma processing_failure_witness :
  handle (mock_env failing_model) (upload "happy.jpg") =
    (Returns (JError "Error during prediction: inference failed", 500%nat),
     {| fs := delete happy_path (fs after_failed_inference);
        log := log after_failed_inference ++
               [("ERROR", "Error during prediction: inference failed")];
        model_calls := model_calls after_failed_inference |})
  /\ delete happy_path (fs after_failed_inference) !! happy_path = None.
Proof.
  apply (proj1 (proj1 (processing_failure_caught ascii_str_lower ascii_nfkd
                         (mock_env failing_model) (upload "happy.jpg") happy_file
                         empty_world eq_refl happy_jpg_allowed)
                  inference_error after_failed_inference
                  ltac:(vm_compute; reflexivity))).
  right. reflexivity.
Defined.

(** A directory has the name of the upload: saving raises, the [except]
    block logs the error and finds the path in existence, [os.remove]
    raises in its turn, and that exception leaves the handler: no response
    is returned. *)
Lemma failure_escapes_handler :
  let env := posix_env (happy_results float32 float32) in
  (predict_try env happy_file happy_path world_with_directory).1 =
    Raises (is_a_directory happy_path)
  /\ predict ascii_str_lower ascii_nfkd env (upload "happy.jpg") world_with_directory =
       (Raises (is_a_directory happy_path),
        {| fs := fs world_with_directory;
           log := [("ERROR",
                    "Error during prediction: [Errno 21] Is a directory: '/srv/app/uploads/happy.jpg'")];
           model_calls := [] |}).
Proof. cbv zeta. split; vm_compute; reflexivity. Qed.

Lemma no_probability_vector_witness :
  exists msg,
    (handle (mock_env (Returns (ResultList []))) (upload "happy.jpg")).1 =
      Returns (JError msg, 500%nat) /\
    (msg = "Unable to process the image" \/
     msg = "Error during prediction: list index out of range" \/
     msg = "Error during prediction: " +:+
           exn_str (enoent (mock_env (Returns (ResultList []))) happy_path)).
Proof.
  apply (no_probability_vector_is_500 ascii_str_lower ascii_nfkd
           (mock_env (Returns (ResultList []))) (upload "happy.jpg") happy_file
           empty_world
           (inference_call happy_path (Decoded [x89; x50] (640%nat, 480%nat))
              (Returns (ResultList [])))
           (ResultList []) eq_refl happy_jpg_allowed).
  - intros fs. reflexivity.
  - vm_compute. reflexivity.
  - reflexivity.
  - reflexivity.
Defined.

Lemma inference_witness :
  let env := mock_env (happy_results float32 float32) in
  let w' := (handle env (upload "happy.jpg")).2 in
  (exists calls,
     model_calls w' = model_calls empty_world ++ calls /\ (length calls <= 1)%nat /\
     forall call, call ∈ calls ->
       source call = happy_path /\
       exists img, seen call = Some (Saved (Resized img (224%nat, 224%nat))) /\
                   seen call ≫= saved_size = Some (224%nat, 224%nat))
  /\ (forall sz,
        save_fails env happy_file happy_path (fs empty_world) = None ->
        decode env (stream happy_file) = Returns sz ->
        resize_fails env (Decoded (stream happy_file) sz) (224%nat, 224%nat) = None ->
        save_image_fails env (Resized (Decoded (stream happy_file) sz) (224%nat, 224%nat))
          happy_path (<[ happy_path := Uploaded (stream happy_file) ]> (fs empty_world)) = None ->
        exists res,
          model_calls w' =
            model_calls empty_world ++
            [inference_call happy_path (Decoded (stream happy_file) sz) res]).
Proof.
  exact (inference_sees_resized_image ascii_str_lower ascii_nfkd
           (mock_env (happy_results float32 float32)) (upload "happy.jpg") happy_file
           empty_world eq_refl happy_jpg_allowed).
Defined.

Lemma stored_inside_uploads_witness :
  Forall (fun c => filename_char c = true) (list_ascii_of_string "happy.jpg") /\
  filepath_of ascii_nfkd (mock_env failing_model) happy_file =
    "/srv/app/uploads" +:+ "/" +:+ "happy.jpg" /\
  directly_inside "/srv/app/uploads"
    (filepath_of ascii_nfkd (mock_env failing_model) happy_file).
Proof.
  exact (stored_inside_uploads ascii_str_lower ascii_nfkd (mock_env failing_model)
           ascii_tables_lower_ascii ascii_tables_lower_non_ascii ascii_tables_nfkd
           happy_file happy_jpg_allowed).
Defined.


End Witness.

(** * Further properties of the handler, of start-up and of file names *)

Module Further.
Import Py Numpy Labels Werkzeug Os Pil Model Sys App Startup Sanitized Frame.
Import Scenario MoreScenarios Props.

Ltac unfold_handler :=
  unfold predict_try, predict_except, resize_image, try_except, bind,
    file_save, logging, image_open, image_resize, image_save, model_predict,
    os_remove, os_path_exists, ret, raise, lift, set_fs in *.

Ltac inner_scrutinee x :=
  lazymatch x with
  | context [match ?y with _ => _ end] => inner_scrutinee y
  | _ => constr:(x)
  end.

Ltac exec_step :=
  match goal with
  | |- context [<[ ?p := ?x ]> ?m !! ?p] => rewrite (lookup_insert_eq m p x)
  | |- context [match ?x with _ => _ end] =>
      let y := inner_scrutinee x in
      first [ is_var y; destruct y | destruct y eqn:? ]
  end.

Ltac exec := repeat (simpl; exec_step); simpl.

Section Requests.

Variable str_lower : ustr -> ustr.
Variable nfkd : ustr -> ustr.
Variable env : Env.

Local Abbreviation allowed_file := (allowed_file str_lower).
Local Abbreviation predict := (predict str_lower nfkd).
Local Abbreviation filepath_of := (filepath_of nfkd).
Local Abbreviation has_allowed_extension := (has_allowed_extension str_lower).

Lemma contains_key_None key files :
  getitem key files = None -> contains_key key files = false.
Proof.
  unfold contains_key, getitem.
  induction files as [|[k f] files IH]; simpl; [done|].
  destruct (String.eqb k key); simpl; [done|apply IH].
Qed.

(** What [results] the [if] of line 84 turns into a response, and into
    which. *)
Lemma extract_returns results resp :
  extract results = Returns resp ->
  (resp = (JError "Unable to process the image", 500%nat) /\
   no_probability_vector results = true)
  \/ exists probs rest,
       results = ResultList (Probs (Returns probs) :: rest) /\
       resp = (JPredictions (predictions probs), 200%nat).
Proof.
  destruct results as [|[|[| |[probs|e]] rest]]; simpl; try discriminate;
    intros [= <-]; try (left; split; reflexivity).
  right. by exists probs, rest.
Qed.

(** The three ways a request is handled: no part named "image", a part
    whose name fails the extension check, and a part that is processed. *)
Lemma predict_cases request w :
  (getitem "image" (req_files request) = None /\
   predict env request w = (Returns (JError "No image file provided", 400%nat), w))
  \/ (exists file,
        getitem "image" (req_files request) = Some file /\
        ~ has_allowed_extension (filename file) /\
        predict env request w =
          (Returns (JError "Invalid file format. Allowed formats: png, jpg, jpeg", 400%nat), w))
  \/ (exists file,
        getitem "image" (req_files request) = Some file /\
        has_allowed_extension (filename file) /\
        predict env request w =
          try_except (predict_try env file (filepath_of env file))
                     (predict_except env (filepath_of env file)) w).
Proof.
  destruct (getitem "image" (req_files request)) as [file|] eqn:Hget.
  - right.
    destruct (allowed_file_returns str_lower (filename file)) as [[] Hb].
    + right. exists file. apply allowed_file_spec in Hb.
      split; [done|]. split; [done|]. by apply predict_valid.
    + left. exists file.
      assert (Hno : ~ has_allowed_extension (filename file)).
      { intros H. apply allowed_file_spec in H. congruence. }
      split; [done|]. split; [done|].
      unfold App.predict.
      rewrite (getitem_contains_key _ _ _ Hget), Hget. simpl.
      destruct (truthy file); [|done].
      unfold bind, lift. by rewrite Hb.
  - left. split; [done|]. unfold App.predict.
    by rewrite (contains_key_None _ _ Hget).
Qed.

(** Every way the [try] block ends, with the response or the exception, the
    records it has logged and whether the model was called. *)
Lemma predict_try_log file filepath w :
  exists r w1 entries,
    predict_try env file filepath w = (r, w1) /\
    log w1 = log w ++ entries /\ Forall is_info entries /\
    (forall resp, r = Returns resp -> length entries = 3%nat).
Proof.
  unfold_handler. exec;
    do 3 eexists; (split; [reflexivity|]); simpl;
    (split; [first [ rewrite <- ?app_assoc; simpl; reflexivity
                   | symmetry; apply app_nil_r ] |]);
    (split; [repeat constructor
            | intros resp Hr; first [reflexivity | discriminate Hr]]).
Qed.

(** X1: how the handler ends, for every request and whatever the
    collaborators do.  It answers 400 with one of the two validation
    messages, and then nothing was written, logged or run; or 500 with an
    error body; or 200 with the predictions of some probability vector; or
    an exception leaves it, and then the upload passed both validations,
    the exception is one that [os.remove] raised in the [except] block, and
    the entry is still at the upload's path.  So when [os.remove] never
    fails, every request is answered. *)
Theorem every_request_answered (request : Request) (w : World) :
  (exists r w',
     predict env request w = (r, w') /\
     match r with
     | Returns (body, status) =>
         (status = 400%nat /\ w' = w /\
          (body = JError "No image file provided" \/
           body = JError "Invalid file format. Allowed formats: png, jpg, jpeg"))
         \/ (status = 500%nat /\ exists msg, body = JError msg)
         \/ (status = 200%nat /\ exists probs, body = JPredictions (predictions probs))
     | Raises e =>
         exists file,
           getitem "image" (req_files request) = Some file /\
           has_allowed_extension (filename file) /\
           is_Some (fs w' !! filepath_of env file) /\
           remove_fails env (filepath_of env file) (fs w') = Some e
     end)
  /\ ((forall path, removal_succeeds env path) ->
      exists resp w', predict env request w = (Returns resp, w')).
Proof.
  assert (Hends : exists r w',
     predict env request w = (r, w') /\
     match r with
     | Returns (body, status) =>
         (status = 400%nat /\ w' = w /\
          (body = JError "No image file provided" \/
           body = JError "Invalid file format. Allowed formats: png, jpg, jpeg"))
         \/ (status = 500%nat /\ exists msg, body = JError msg)
         \/ (status = 200%nat /\ exists probs, body = JPredictions (predictions probs))
     | Raises e =>
         exists file,
           getitem "image" (req_files request) = Some file /\
           has_allowed_extension (filename file) /\
           is_Some (fs w' !! filepath_of env file) /\
           remove_fails env (filepath_of env file) (fs w') = Some e
     end).
  { destruct (predict_cases request w)
      as [[_ ->]|[(file & _ & _ & ->)|(file & Hget & Hext & ->)]].
    - do 2 eexists. split; [reflexivity|]. left. auto.
    - do 2 eexists. split; [reflexivity|]. left. auto.
    - unfold try_except.
      pose proof (predict_try_paths env file (filepath_of env file) w) as Hpaths.
      destruct (predict_try env file (filepath_of env file) w) as [[resp|e] w1].
      + destruct Hpaths as [(e & He & _)|(img & res & _ & Hres)]; [discriminate|].
        destruct res as [results|e]; [|discriminate].
        destruct Hres as [[He _]|[(e & He & _)|[Hr _]]]; [discriminate|discriminate|].
        symmetry in Hr.
        apply extract_returns in Hr as [[-> _]|(probs & rest & _ & ->)].
        * do 2 eexists. split; [reflexivity|]. right. left. split; [done|]. by eexists.
        * do 2 eexists. split; [reflexivity|]. right. right. split; [done|]. by eexists.
      + destruct (predict_except_ends env (filepath_of env file) e w1)
          as (r & w' & -> & _ & _ & Hr).
        exists r, w'. split; [reflexivity|]. destruct r as [resp|e'].
        * destruct Hr as (-> & _). right. left. split; [done|]. by eexists.
        * destruct Hr as (_ & Hsome & Hrm). by exists file. }
  split; [exact Hends|].
  intros Hrm. destruct Hends as (r & w' & -> & Hr). destruct r as [resp|e].
  - by exists resp, w'.
  - destruct Hr as (file & _ & _ & _ & He). rewrite (Hrm _ (fs w')) in He. discriminate.
Qed.

(** X2: the handler reads the form through [request.files["image"]] only,
    which is the first part under that name: two requests with the same
    first "image" part (or both without one) are handled alike, whatever
    other parts they carry. *)
Theorem only_first_image_part_read (request1 request2 : Request) (w : World) :
  getitem "image" (req_files request1) = getitem "image" (req_files request2) ->
  predict env request1 w = predict env request2 w.
Proof.
  intros Hsame. unfold App.predict.
  assert (Hc : contains_key "image" (req_files request1) =
               contains_key "image" (req_files request2)).
  { destruct (getitem "image" (req_files request2)) as [file|] eqn:H2.
    - by rewrite (getitem_contains_key _ _ _ Hsame), (getitem_contains_key _ _ _ H2).
    - by rewrite (contains_key_None _ _ Hsame), (contains_key_None _ _ H2). }
  by rewrite Hc, Hsame.
Qed.

(** X6: a 200 answer is given only when the upload passed both validations
    and the model, called on the resized image at the upload's path,
    returned a list whose first result carries a probability vector; the
    body is the predictions of that vector, and the upload's file is gone. *)
Theorem success_only_with_probabilities (request : Request) (w w' : World)
    (body : json) :
  predict env request w = (Returns (body, 200%nat), w') ->
  exists file img probs rest,
    getitem "image" (req_files request) = Some file /\
    has_allowed_extension (filename file) /\
    model_calls w' =
      model_calls w ++
      [inference_call (filepath_of env file) img
         (Returns (ResultList (Probs (Returns probs) :: rest)))] /\
    body = JPredictions (predictions probs) /\
    fs w' !! filepath_of env file = None.
Proof.
  destruct (predict_cases request w)
    as [[_ ->]|[(file & _ & _ & ->)|(file & Hget & Hext & ->)]];
    [discriminate|discriminate|].
  unfold try_except.
  pose proof (predict_try_paths env file (filepath_of env file) w) as Hpaths.
  destruct (predict_try env file (filepath_of env file) w) as [[resp|e] w1].
  - intros [= -> ->].
    destruct Hpaths as [(e & He & _)|(img & res & Hcalls & Hres)]; [discriminate|].
    destruct res as [results|e]; [|discriminate].
    destruct Hres as [[He _]|[(e & He & _)|[Hr Hfs]]]; [discriminate|discriminate|].
    symmetry in Hr. apply extract_returns in Hr as [[[=] _]|(probs & rest & -> & [= ->])].
    by exists file, img, probs, rest.
  - destruct (predict_except_ends env (filepath_of env file) e w1)
      as (r & w2 & -> & _ & _ & Hr).
    intros [= -> ->]. by destruct Hr as ([=] & _).
Qed.

(** X8: what a processed request logs, when [os.remove] does not fail.
    When the [try] block returns (a 200, or the 500 "Unable to process the
    image") exactly three records were logged, all at level INFO.
    Otherwise the error string of the 500 body is the last record logged,
    at level ERROR, after INFO records only. *)
Theorem error_text_is_logged (request : Request) (file : FileStorage) (w : World) :
  getitem "image" (req_files request) = Some file ->
  has_allowed_extension (filename file) ->
  removal_succeeds env (filepath_of env file) ->
  exists resp w' entries,
    predict env request w = (Returns resp, w') /\
    log w' = log w ++ entries /\
    ((Forall is_info entries /\ length entries = 3%nat /\
      (resp.2 = 200%nat \/ resp = (JError "Unable to process the image", 500%nat)))
     \/ (exists infos e,
           entries = infos ++ [("ERROR", "Error during prediction: " +:+ exn_str e)] /\
           Forall is_info infos /\
           resp = (JError ("Error during prediction: " +:+ exn_str e), 500%nat))).
Proof.
  intros Hget Hext Hrm. rewrite (predict_valid _ _ _ _ _ _ Hget Hext).
  unfold try_except.
  destruct (predict_try_log file (filepath_of env file) w)
    as (r & w1 & entries & Htry & Hlog & Hinfo & Hlen).
  pose proof (predict_try_paths env file (filepath_of env file) w) as Hpaths.
  rewrite Htry in *. destruct r as [resp|e].
  - exists resp, w1, entries. split; [reflexivity|]. split; [exact Hlog|].
    left. split; [exact Hinfo|]. split; [by eapply Hlen|].
    destruct Hpaths as [(e & He & _)|(img & res & _ & Hres)]; [discriminate|].
    destruct res as [results|e]; [|discriminate].
    destruct Hres as [[He _]|[(e & He & _)|[Hr _]]]; [discriminate|discriminate|].
    symmetry in Hr. apply extract_returns in Hr as [[-> _]|(probs & rest & _ & ->)]; auto.
  - rewrite predict_except_answers by (right; apply Hrm).
    do 3 eexists. split; [reflexivity|]. simpl. rewrite Hlog, <- app_assoc.
    split; [reflexivity|]. right. by exists entries, e.
Qed.

End Requests.

Section Processing.

Variable str_lower : ustr -> ustr.
Variable nfkd : ustr -> ustr.
Variable env : Env.

Local Abbreviation predict := (predict str_lower nfkd).
Local Abbreviation filepath_of := (filepath_of nfkd).
Local Abbreviation has_allowed_extension := (has_allowed_extension str_lower).

(** X4: [resize_image] never calls the model.  When it returns, the file at
    [filepath] holds the image that was there resized to [target_size], and
    one INFO record "Image resized to: ..." was logged.  When it fails it
    raises a [RuntimeError] whose text is "Error resizing image: " followed
    by the text of the cause, and logs nothing; for a path with no file the
    cause is the operating system's error and nothing is changed. *)
Theorem resize_image_contract (filepath : string) (target_size : nat * nat)
    (w : World) :
  exists r w',
    resize_image env filepath target_size w = (r, w') /\
    model_calls w' = model_calls w /\
    match r with
    | Returns _ =>
      exists img,
        image_open env filepath w = (Returns img, w) /\
        fs w' = <[ filepath := Saved (Resized img target_size) ]> (fs w) /\
        log w' = log w ++ [("INFO", "Image resized to: " +:+ str_size target_size)]
    | Raises e =>
      log w' = log w /\
      exists cause,
        e = Exn "RuntimeError" ("Error resizing image: " +:+ exn_str cause) /\
        (fs w !! filepath = None -> cause = enoent env filepath /\ w' = w)
    end.
Proof.
  unfold_handler. exec; do 2 eexists; (split; [reflexivity|]); simpl;
    (split; [reflexivity|]);
    first
      [ eexists; split; [reflexivity|]; split; reflexivity
      | split; [reflexivity|]; eexists; split; [reflexivity|];
        intros Hnone; first [ discriminate Hnone | by destruct w ] ].
Qed.

Ltac frame Hs Hi Hm p Hp :=
  repeat first
    [ rewrite lookup_delete_ne by (intros ->; apply Hp; reflexivity)
    | rewrite lookup_insert_ne by (intros ->; apply Hp; reflexivity)
    | match goal with
      | H : save_fails env _ _ _ = Some _ |- _ => rewrite (Hs _ _ _ H p Hp); clear H
      | H : save_image_fails env _ _ _ = Some _ |- _ => rewrite (Hi _ _ _ _ H p Hp); clear H
      | H : model env _ _ = _ |- _ => rewrite (Hm _ _ _ H p Hp); clear H
      end ];
  try reflexivity.

(** The [try] block changes no file but the upload's. *)
Lemma predict_try_frame file filepath w :
  collaborators_touch_only env file filepath ->
  same_elsewhere filepath (fs w) (fs (predict_try env file filepath w).2).
Proof.
  intros (Hs & Hi & Hm) p Hp. unfold_handler. exec; frame Hs Hi Hm p Hp.
Qed.

(** X7: when saving, writing the resized image and running the model touch
    no file but the upload's, and [os.remove] does not fail, a processed
    request leaves the file system as it found it, less the file at the
    upload's path: no other file of the uploads directory is created,
    changed or removed, whether the request succeeds or fails. *)
Theorem other_files_untouched (request : Request) (file : FileStorage) (w : World) :
  getitem "image" (req_files request) = Some file ->
  has_allowed_extension (filename file) ->
  collaborators_touch_only env file (filepath_of env file) ->
  removal_succeeds env (filepath_of env file) ->
  fs (predict env request w).2 = delete (filepath_of env file) (fs w).
Proof.
  intros Hget Hext Hcol Hrm. rewrite (predict_valid _ _ _ _ _ _ Hget Hext).
  unfold try_except.
  pose proof (predict_try_frame file (filepath_of env file) w Hcol) as Hframe.
  pose proof (predict_try_paths env file (filepath_of env file) w) as Hpaths.
  destruct (predict_try env file (filepath_of env file) w) as [[resp|e] w1];
    simpl in Hframe.
  - simpl. apply map_eq. intros p.
    destruct (decide (p = filepath_of env file)) as [->|Hp].
    + rewrite lookup_delete_eq.
      destruct Hpaths as [(e & He & _)|(img & res & _ & Hres)]; [discriminate|].
      destruct res as [results|e]; [|discriminate].
      destruct Hres as [[He _]|[(e & He & _)|[_ Hfs]]]; [discriminate|discriminate|exact Hfs].
    + rewrite lookup_delete_ne by done. by apply Hframe.
  - rewrite predict_except_answers by (right; apply Hrm). simpl. apply map_eq. intros p.
    destruct (decide (p = filepath_of env file)) as [->|Hp].
    + by rewrite !lookup_delete_eq.
    + rewrite !lookup_delete_ne by done. by apply Hframe.
Qed.

(** X5: the successful run, end to end.  When the upload is saved, decoded,
    resized and written back, the model returns a list whose first result
    carries the vector [probs] and leaves the file in place, and
    [os.remove] removes it, the answer is 200 with the predictions of
    [probs]; the file is removed, the three INFO records are logged and the
    model was called once. *)
Theorem successful_prediction (request : Request) (file : FileStorage) (w : World)
    (sz : nat * nat) (probs : ndarray) (rest : list probs_attr)
    (fs' : filesystem) :
  let filepath := filepath_of env file in
  let resized := Resized (Decoded (stream file) sz) (224%nat, 224%nat) in
  let uploaded := <[ filepath := Uploaded (stream file) ]> (fs w) in
  let results := ResultList (Probs (Returns probs) :: rest) in
  getitem "image" (req_files request) = Some file ->
  has_allowed_extension (filename file) ->
  save_fails env file filepath (fs w) = None ->
  decode env (stream file) = Returns sz ->
  resize_fails env (Decoded (stream file) sz) (224%nat, 224%nat) = None ->
  save_image_fails env resized filepath uploaded = None ->
  model env filepath (<[ filepath := Saved resized ]> uploaded) = (Returns results, fs') ->
  is_Some (fs' !! filepath) ->
  remove_fails env filepath fs' = None ->
  predict env request w =
    (Returns (JPredictions (predictions probs), 200%nat),
     {| fs := delete filepath fs';
        log := log w ++
               [("INFO", "Image saved at: " +:+ filepath);
                ("INFO", "Original image size: " +:+ str_size sz);
                ("INFO", "Image resized to: (224, 224)")];
        model_calls :=
          model_calls w ++
          [inference_call filepath (Decoded (stream file) sz) (Returns results)] |}).
Proof.
  intros filepath resized uploaded results Hget Hext Hsave Hdec Hres Himg Hmodel
    Hfile Hrm.
  by apply predict_success.
Qed.

End Processing.

Section Names.

Variable str_lower : ustr -> ustr.
Variable nfkd : ustr -> ustr.
Variable env : Env.

Local Abbreviation allowed_file := (allowed_file str_lower).
Local Abbreviation filepath_of := (filepath_of nfkd).

(** X3: [allowed_file] reads the extension after the last dot only: the
    name is accepted exactly when the lower-cased text after its last dot
    is "png", "jpg" or "jpeg", whatever stands before (other dots
    included). *)
Theorem allowed_file_reads_last_extension (stem ext : ustr) :
  46%N ∉ ext ->
  allowed_file (stem ++ 46%N :: ext)%list =
    Returns (bool_decide (str_lower ext ∈ ALLOWED_EXTENSIONS)).
Proof.
  intros Hnot. unfold App.allowed_file.
  replace (contains 46 (stem ++ 46%N :: ext)%list) with true.
  2:{ symmetry. apply contains_elem_of, elem_of_app. right. left. }
  unfold rsplit1. by rewrite (rpartition_app _ _ _ Hnot).
Qed.

Lemma string_app_inv_head (s t1 t2 : string) : s +:+ t1 = s +:+ t2 -> t1 = t2.
Proof.
  induction s as [|c s IH]; [done|]. cbn [String.app]. intros [= H]. by apply IH.
Qed.

(** The path of any upload: the uploads directory, a separator and the
    sanitized name. *)
Lemma filepath_of_shape file :
  filepath_of env file =
    UPLOADS_DIR env +:+ "/" +:+ secure_filename nfkd (filename file).
Proof.
  unfold App.filepath_of.
  destruct (UPLOADS_DIR_shape env) as [Hne Hend].
  apply path_join_component; [done|done|].
  destruct (secure_filename_chars nfkd (filename file)) as [Hchars _].
  destruct (secure_filename nfkd (filename file)) as [|a name]; [done|].
  simpl in Hchars. apply Forall_cons in Hchars as [Ha _].
  unfold startswith_sep.
  destruct (Ascii.eqb_spec a "/") as [->|Hne']; [discriminate Ha|].
  destruct a as [[] [] [] [] [] [] [] []]; try reflexivity. done.
Qed.

(** X11: the path of any upload, accepted or not, is the uploads directory,
    a separator and the sanitized name, which holds no separator; so two
    uploads are stored at the same path exactly when their sanitized names
    are equal. *)
Theorem uploads_collide_on_sanitized_name (file1 file2 : FileStorage) :
  (filepath_of env file1 =
     UPLOADS_DIR env +:+ "/" +:+ secure_filename nfkd (filename file1))
  /\ ~ In "/"%char (list_ascii_of_string (secure_filename nfkd (filename file1)))
  /\ (filepath_of env file1 = filepath_of env file2 <->
      secure_filename nfkd (filename file1) = secure_filename nfkd (filename file2)).
Proof.
  split; [apply filepath_of_shape|]. split.
  - destruct (secure_filename_chars nfkd (filename file1)) as [Hchars _].
    intros H. apply list_elem_of_In in H.
    by apply (proj1 (Forall_forall _ _) Hchars) in H.
  - rewrite !filepath_of_shape. split.
    + intros H. apply string_app_inv_head in H. by apply string_app_inv_head in H.
    + by intros ->.
Qed.

End Names.

Section Extension.

Variable str_lower : ustr -> ustr.
Variable nfkd : ustr -> ustr.

Local Abbreviation chars := ["."; "_"]%char.

Ltac bools :=
  repeat match goal with
         | |- context [(?a <=? ?b)%N] => destruct (N.leb_spec a b)
         | |- context [(?a =? ?b)%N] => destruct (N.eqb_spec a b)
         | H : context [(?a <=? ?b)%N] |- _ => destruct (N.leb_spec a b)
         | H : context [(?a =? ?b)%N] |- _ => destruct (N.eqb_spec a b)
         end;
  simpl in *; try done; try lia.

Lemma kept_anywhere_range c :
  kept_anywhere c = true ->
  (48 <= c <= 57 \/ 65 <= c <= 90 \/ 97 <= c <= 122 \/ c = 45)%N.
Proof. unfold kept_anywhere. intros H. bools. Qed.

(** A kept character is ASCII, is neither a separator nor white space, and
    is not stripped. *)
Lemma kept_anywhere_facts c :
  kept_anywhere c = true ->
  is_ascii c = true /\ N_of_ascii (ascii_of_N c) = c /\
  ascii_of_N c <> "/"%char /\ is_space (ascii_of_N c) = false /\
  filename_char (ascii_of_N c) = true /\ in_chars chars (ascii_of_N c) = false.
Proof.
  intros H. apply kept_anywhere_range in H.
  assert (Hn : N_of_ascii (ascii_of_N c) = c) by (apply N_ascii_embedding; lia).
  split; [apply N.ltb_lt; lia|]. split; [exact Hn|]. split; [|split; [|split]].
  - intros Heq. apply (f_equal N_of_ascii) in Heq. rewrite Hn in Heq.
    simpl in Heq. lia.
  - unfold is_space. rewrite Hn. bools.
  - unfold filename_char. rewrite Hn. bools.
  - simpl. rewrite orb_false_r. apply orb_false_iff.
    split; apply Ascii.eqb_neq; intros Heq;
      apply (f_equal N_of_ascii) in Heq; rewrite Hn in Heq; simpl in Heq; lia.
Qed.

(** A character the filter keeps that is not kept anywhere is one of the
    stripped ones. *)
Lemma filename_char_stripped x :
  filename_char x = true -> kept_anywhere (N_of_ascii x) = false ->
  in_chars chars x = true.
Proof.
  unfold filename_char, kept_anywhere. intros Hf Hk.
  assert (Hx : N_of_ascii x = 46%N \/ N_of_ascii x = 95%N) by bools.
  rewrite <- (ascii_N_embedding x).
  destruct Hx as [-> | ->]; reflexivity.
Qed.

Lemma string_of_list_ascii_app_distr (s t : list ascii) :
  string_of_list_ascii (s ++ t) = string_of_list_ascii s +:+ string_of_list_ascii t.
Proof. induction s as [|c s IH]; [done|]. simpl. by rewrite IH. Qed.

Lemma filter_all {A} (f : A -> bool) (l : list A) :
  Forall (fun x => f x = true) l -> List.filter f l = l.
Proof.
  induction 1 as [|x l Hx _ IH]; [done|]. simpl. by rewrite Hx, IH.
Qed.

(** A text without white space is one run. *)
Lemma split_from_run t cur :
  Forall (fun c => is_space c = false) t -> t <> [] \/ cur <> [] ->
  split_from cur t = [rev cur ++ t].
Proof.
  intros Ht. revert cur. induction Ht as [|c t Hc _ IH]; intros cur Hne; simpl.
  - destruct Hne as [|Hne]; [done|]. destruct cur; [done|]. by rewrite app_nil_r.
  - rewrite Hc, IH by (right; done). simpl. by rewrite <- app_assoc.
Qed.

(** Splitting at white space and joining with [_] keeps a suffix that has
    no white space; before it stand the other characters that are not white
    space, and [_]. *)
Lemma join_split_suffix t :
  t <> [] -> Forall (fun c => is_space c = false) t ->
  forall a cur, exists pre,
    join ["_"%char] (split_from cur (a ++ t)) = pre ++ t /\
    (forall x, In x pre -> In x cur \/ In x a \/ x = "_"%char) /\
    (forall x, In x cur \/ In x a -> is_space x = false -> In x pre).
Proof.
  intros Hne Ht. induction a as [|c a IH]; intros cur.
  - exists (rev cur). simpl. rewrite split_from_run by auto. split; [done|]. split.
    + intros x Hx. left. by rewrite in_rev.
    + intros x [Hx|[]] _. by rewrite <- in_rev.
  - cbn [app split_from]. destruct (is_space c) eqn:Hc.
    + destruct (IH []) as (pre & Hpre & Hin & Hkeep). destruct cur as [|y cur].
      * exists pre. split; [exact Hpre|]. split.
        -- intros x Hx. destruct (Hin x Hx) as [[]|[?|?]]; [right; left; by right|by right; right].
        -- intros x [[]|[->|Hx]] Hsp; [congruence|]. apply Hkeep; [by right|done].
      * exists (rev (y :: cur) ++ "_"%char :: pre). split; [|split].
        -- destruct (split_from [] (a ++ t)) as [|q qs] eqn:Hs.
           ++ simpl in Hpre. symmetry in Hpre. apply app_eq_nil in Hpre as [_ ?]. done.
           ++ cbn [join]. cbn [join] in Hpre. rewrite Hpre.
              rewrite <- !app_assoc. reflexivity.
        -- intros x Hx. apply in_app_iff in Hx as [Hx|[<-|Hx]].
           ++ left. by rewrite in_rev.
           ++ by right; right.
           ++ destruct (Hin x Hx) as [[]|[?|?]]; [right; left; by right|by right; right].
        -- intros x Hx Hsp. apply in_app_iff.
           destruct Hx as [Hx|[->|Hx]]; [|congruence|].
           ++ left. by rewrite <- in_rev.
           ++ right. right. apply Hkeep; [by right|done].
    + destruct (IH (c :: cur)) as (pre & Hpre & Hin & Hkeep).
      exists pre. split; [exact Hpre|]. split.
      * intros x Hx. destruct (Hin x Hx) as [[<-|?]|[?|?]].
        -- right. left. by left.
        -- by left.
        -- right. left. by right.
        -- by right; right.
      * intros x Hx Hsp. apply Hkeep; [|done].
        destruct Hx as [Hx|[->|Hx]]; [left; by right|left; by left|by right].
Qed.

Lemma lstrip_app_kept a c t :
  in_chars chars c = false -> lstrip chars (a ++ c :: t) = lstrip chars a ++ c :: t.
Proof.
  intros Hc. induction a as [|x a IH]; cbn [app lstrip].
  - by rewrite Hc.
  - destruct (in_chars chars x); [exact IH|done].
Qed.

Lemma rstrip_kept_last s z :
  in_chars chars z = false -> rstrip chars (s ++ [z]) = s ++ [z].
Proof.
  intros Hz. unfold rstrip. rewrite rev_app_distr. cbn [rev app lstrip].
  rewrite Hz. change (z :: rev s) with ([z] ++ rev s).
  by rewrite rev_app_distr, rev_involutive.
Qed.

Lemma lstrip_snoc a c :
  lstrip chars (a ++ [c]) = [] \/ exists b, lstrip chars (a ++ [c]) = b ++ [c].
Proof.
  induction a as [|x a IH]; cbn [app lstrip].
  - destruct (in_chars chars c); [by left|]. right. by exists [].
  - destruct (in_chars chars x); [exact IH|]. right. by exists (x :: a).
Qed.

Lemma lstrip_all s :
  Forall (fun x => in_chars chars x = true) s -> lstrip chars s = [].
Proof. induction 1 as [|x s Hx _ IH]; [done|]. cbn [lstrip]. by rewrite Hx. Qed.

Lemma ascii_lower_kept c k :
  ascii_lower c = k -> (97 <= k <= 122)%N -> kept_anywhere c = true.
Proof.
  unfold ascii_lower, kept_anywhere. intros <- Hk.
  destruct ((65 <=? c) && (c <=? 90))%N eqn:Hup.
  - by rewrite orb_true_r.
  - bools.
Qed.

(** On ASCII text [str.lower] maps the capital letters to the small ones. *)
Hypothesis lower_on_ascii :
  forall s, Forall (fun c => is_ascii c = true) s -> str_lower s = map ascii_lower s.

(** No text with a character outside ASCII has "png", "jpg" or "jpeg" as its
    lower-case form. *)
Hypothesis lower_only_ascii :
  forall s, str_lower s ∈ ALLOWED_EXTENSIONS -> Forall (fun c => is_ascii c = true) s.

(** NFKD normalization leaves an ASCII end of a text in place: ASCII
    characters have no decomposition and are not reordered. *)
Hypothesis nfkd_ascii_suffix :
  forall s t, Forall (fun c => is_ascii c = true) t -> nfkd (s ++ t)%list = (nfkd s ++ t)%list.

(** An accepted extension is made of letters. *)
Lemma extension_all_letters ext :
  str_lower ext ∈ ALLOWED_EXTENSIONS ->
  ext <> [] /\ Forall (fun c => kept_anywhere c = true) ext.
Proof.
  intros Hin. pose proof (lower_only_ascii _ Hin) as Hascii.
  rewrite (lower_on_ascii _ Hascii) in Hin.
  unfold ALLOWED_EXTENSIONS in Hin. set_unfold in Hin.
  destruct ext as [|c1 [|c2 [|c3 [|c4 [|c5 ext]]]]];
    destruct Hin as [[H|H]|H]; try discriminate H;
    (split; [done|]); injection H as H1 H2 H3 H4 || injection H as H1 H2 H3;
    repeat constructor;
    first [ apply (ascii_lower_kept _ _ H1) | apply (ascii_lower_kept _ _ H2)
          | apply (ascii_lower_kept _ _ H3) | apply (ascii_lower_kept _ _ H4) ]; lia.
Qed.

(** X12: the stored name of an accepted upload ends with the extension as
    the client wrote it.  When the normalized stem holds an ASCII letter,
    digit or hyphen the name ends with a dot and the extension; when it
    holds none, the dot is stripped and the stored name is the bare
    extension. *)
Theorem stored_name_keeps_extension (stem ext : ustr) :
  str_lower ext ∈ ALLOWED_EXTENSIONS ->
  let name := secure_filename nfkd (stem ++ 46%N :: ext)%list in
  (exists base,
     name = base +:+ ascii_text ext /\ (base = "" \/ exists b, base = b +:+ "."))
  /\ (Forall (fun c => kept_anywhere c = false) (nfkd stem) -> name = ascii_text ext)
  /\ (Exists (fun c => kept_anywhere c = true) (nfkd stem) ->
      exists b, name = (b +:+ ".") +:+ ascii_text ext).
Proof.
  intros Hin name.
  destruct (extension_all_letters ext Hin) as [Hne Hletters].
  pose proof (lower_only_ascii _ Hin) as Hascii.
  set (letters := map ascii_of_N ext).
  set (a := replace_char "/" " " (encode_ascii_ignore (nfkd stem))).
  assert (Hfacts : forall x, In x letters ->
            x <> "/"%char /\ is_space x = false /\ filename_char x = true /\
            in_chars chars x = false).
  { intros x Hx. apply in_map_iff in Hx as (c & <- & Hc).
    apply list_elem_of_In in Hc.
    apply (proj1 (Forall_forall _ _) Hletters) in Hc.
    by destruct (kept_anywhere_facts c Hc) as (_ & _ & ? & ? & ? & ?). }
  (* the text that is split: the stem's ASCII characters, then the extension *)
  assert (Htext : replace_char "/" " " (encode_ascii_ignore (nfkd (stem ++ 46%N :: ext)%list)) =
                  a ++ "."%char :: letters).
  { rewrite nfkd_ascii_suffix by (constructor; done).
    unfold encode_ascii_ignore, replace_char.
    rewrite List.filter_app, !map_app. f_equal.
    change (List.filter is_ascii (46%N :: ext)) with (46%N :: List.filter is_ascii ext).
    rewrite (filter_all _ _ Hascii). cbn [map]. fold letters.
    f_equal; try reflexivity.
    rewrite <- (map_id letters) at 2. apply map_ext_in.
    intros x Hx. destruct (Hfacts x Hx) as (Hs & _).
    apply Ascii.eqb_neq in Hs. by rewrite Hs. }
  destruct (join_split_suffix ("."%char :: letters)) with (a := a) (cur := @nil ascii)
    as (pre & Hpre & Hfrom & Hkeep).
  { done. }
  { constructor; [reflexivity|]. apply Forall_forall. intros x Hx.
    apply list_elem_of_In in Hx. by apply Hfacts. }
  (* the last letter *)
  assert (Hlast : exists init z, letters = init ++ [z] /\ in_chars chars z = false).
  { destruct (exists_last (l := letters)) as (init & z & Hl).
    - unfold letters. by destruct ext.
    - exists init, z. split; [exact Hl|]. apply Hfacts. rewrite Hl.
      apply in_app_iff. right. by left. }
  destruct Hlast as (init & z & Hl & Hz).
  assert (Hfirst : exists c0 rest, letters = c0 :: rest /\ in_chars chars c0 = false).
  { destruct letters as [|c0 rest] eqn:Hlet; [by destruct init|].
    exists c0, rest. split; [done|]. apply Hfacts. by left. }
  destruct Hfirst as (c0 & rest & Hlet & Hc0).
  set (p := List.filter filename_char pre).
  assert (Hname : name = string_of_list_ascii (lstrip chars (p ++ ["."%char])) +:+
                         ascii_text ext).
  { unfold name, secure_filename. cbv zeta. unfold split. rewrite Htext, Hpre.
    rewrite List.filter_app. fold p.
    rewrite (filter_all filename_char ("."%char :: letters)).
    2:{ constructor; [reflexivity|]. apply Forall_forall. intros x Hx.
        apply list_elem_of_In in Hx. by apply Hfacts. }
    unfold strip.
    replace (p ++ "."%char :: letters) with ((p ++ ["."%char]) ++ c0 :: rest)
      by (rewrite Hlet, <- app_assoc; reflexivity).
    rewrite (lstrip_app_kept _ _ _ Hc0), <- Hlet, Hl, app_assoc.
    rewrite (rstrip_kept_last _ _ Hz), <- app_assoc, <- Hl.
    by rewrite string_of_list_ascii_app_distr. }
  assert (Hdots : forall b, string_of_list_ascii (b ++ ["."%char]) =
                            string_of_list_ascii b +:+ ".").
  { intros b. by rewrite string_of_list_ascii_app_distr. }
  split; [|split].
  - eexists. split; [exact Hname|].
    destruct (lstrip_snoc p ".") as [->|[b ->]]; [by left|].
    right. eexists. apply Hdots.
  - intros Hnone. rewrite Hname, lstrip_all; [done|].
    apply Forall_app. split; [|by repeat constructor].
    apply Forall_forall. intros x Hx. apply list_elem_of_In in Hx.
    apply filter_In in Hx as [Hx Hf].
    destruct (Hfrom x Hx) as [[]|[Hxa| ->]]; [|reflexivity].
    apply filename_char_stripped; [exact Hf|].
    unfold a, replace_char in Hxa. apply in_map_iff in Hxa as (y & Hy & Hya).
    destruct (Ascii.eqb y "/"); [by subst x|]. subst y.
    unfold encode_ascii_ignore in Hya.
    apply in_map_iff in Hya as (c & <- & Hc). apply filter_In in Hc as [Hc Hasc].
    rewrite N_ascii_embedding
      by (unfold is_ascii in Hasc; apply N.ltb_lt in Hasc; lia).
    apply list_elem_of_In in Hc.
    by apply (proj1 (Forall_forall _ _) Hnone) in Hc.
  - intros Hsome. apply Exists_exists in Hsome as (c & Hc & Hkept).
    apply list_elem_of_In in Hc.
    destruct (kept_anywhere_facts c Hkept) as (Hasc & Hn & Hsl & Hsp & Hf & Hch).
    assert (Hinp : In (ascii_of_N c) (lstrip chars (p ++ ["."%char]))).
    { apply lstrip_keeps; [|exact Hch]. apply in_app_iff. left.
      apply filter_In. split; [|exact Hf].
      apply Hkeep; [|exact Hsp]. right.
      unfold a, replace_char. apply in_map_iff. exists (ascii_of_N c). split.
      - apply Ascii.eqb_neq in Hsl. by rewrite Hsl.
      - unfold encode_ascii_ignore. apply in_map, filter_In. by split. }
    rewrite Hname.
    destruct (lstrip_snoc p ".") as [Hnil|[b Hb]].
    + rewrite Hnil in Hinp. destruct Hinp.
    + rewrite Hb. exists (string_of_list_ascii b). by rewrite Hdots.
Qed.

End Extension.

Section Dictionary.

Variable d : dtype.

(** The comprehension adds one entry per element: no two indices share a
    label. *)
Lemma comprehension_size xs i0 acc :
  (forall k, is_Some (acc !! k) -> exists j, (j < i0)%nat /\ k = label j) ->
  base.size (foldl (add_entry d) acc (enumerate_from i0 xs)) =
    (base.size acc + length xs)%nat.
Proof.
  revert i0 acc. induction xs as [|x xs IH]; intros i0 acc Hacc; simpl; [lia|].
  rewrite IH.
  - unfold add_entry. simpl. rewrite map_size_insert_None; [lia|].
    destruct (acc !! label i0) eqn:Hl; [|done].
    destruct (Hacc (label i0) ltac:(by eexists)) as (j & Hj & Heq).
    apply label_inj in Heq. lia.
  - intros k Hk. unfold add_entry in Hk. simpl in Hk.
    destruct (decide (label i0 = k)) as [<-|Hne].
    + exists i0. split; [lia|done].
    + rewrite lookup_insert_ne in Hk by done.
      destruct (Hacc k Hk) as (j & Hj & ->). exists j. split; [lia|done].
Qed.

End Dictionary.

(** X9: the predictions dictionary has one entry per element of the
    probability vector, under the labels of the indices below its length:
    no two classes share a label, so no entry replaces another. *)
Theorem one_prediction_per_class (probs : ndarray) :
  base.size (predictions probs) = length (arr_data probs)
  /\ forall k, is_Some (predictions probs !! k) <->
               exists i, (i < length (arr_data probs))%nat /\ k = label i.
Proof.
  split.
  - unfold predictions, enumerate. rewrite comprehension_size; [by rewrite map_size_empty|].
    intros k [v Hk]. by rewrite lookup_empty in Hk.
  - intros k. split.
    + intros [v Hk]. unfold predictions, enumerate in Hk.
      apply comprehension_only in Hk as [Hk|(j & p & Hj & -> & _)];
        [by rewrite lookup_empty in Hk|].
      exists j. split; [|done]. by apply lookup_lt_Some in Hj.
    + intros (i & Hi & ->). apply lookup_lt_is_Some_2 in Hi as [p Hp].
      exists (percent (arr_dtype probs) p). unfold predictions, enumerate.
      apply (comprehension_hit (arr_dtype probs) (arr_data probs) 0 ∅ i p Hp).
Qed.


(** X13: loading the module.  It succeeds exactly when the model file exists,
    the model loads and the uploads directory can be made.  Without the
    model file it raises [FileNotFoundError] naming the path before anything
    is done; when loading the model fails it raises a [RuntimeError] with
    the cause's text, logs nothing and makes no directory; and the uploads
    directory is made only after the model has loaded. *)
Theorem startup_loads_model_first (host : Host) (env : Env) (b : Boot) :
  exists r b',
    startup host env b = (r, b') /\
    (r = Returns tt <->
     path_exists host (MODEL_PATH host) = true /\
     yolo_fails host (MODEL_PATH host) = None /\
     makedirs_fails host (UPLOADS_DIR env) = None) /\
    (path_exists host (MODEL_PATH host) = false ->
     b' = b /\
     r = Raises (Exn "FileNotFoundError"
                   ("Model file not found at " +:+ MODEL_PATH host +:+
                    ". Ensure the path is correct."))) /\
    (forall cause,
       path_exists host (MODEL_PATH host) = true ->
       yolo_fails host (MODEL_PATH host) = Some cause ->
       r = Raises (Exn "RuntimeError" ("Error loading YOLO model: " +:+ exn_str cause)) /\
       boot_log b' = boot_log b /\ makedirs_calls b' = makedirs_calls b) /\
    (makedirs_calls b' <> makedirs_calls b ->
     makedirs_calls b' = makedirs_calls b ++ [UPLOADS_DIR env] /\
     yolo_calls b' = yolo_calls b ++ [MODEL_PATH host] /\
     boot_log b' = boot_log b ++ [("INFO", "YOLO model loaded successfully.")] /\
     yolo_fails host (MODEL_PATH host) = None).
Proof.
  unfold startup.
  destruct (path_exists host (MODEL_PATH host)) eqn:Hp; simpl;
    [destruct (yolo_fails host (MODEL_PATH host)) as [cause|] eqn:Hy;
       [|destruct (makedirs_fails host (UPLOADS_DIR env)) as [e|] eqn:Hm]|];
    do 2 eexists; (split; [reflexivity|]); simpl;
    intuition congruence.
Qed.

End Further.

(** * The further properties on concrete requests *)

Module FurtherWitness.
Import Py Numpy Labels Werkzeug Os Pil Model Sys App Startup Sanitized Frame.
Import Scenario MoreScenarios.
Import Props Witness Further.

Lemma mock_env_touches_nothing r file path :
  collaborators_touch_only (mock_env r) file path.
Proof.
  split; [|split]; simpl.
  - discriminate.
  - discriminate.
  - by intros fs r' fs' [= _ ->] p _.
Qed.

Lemma allowed_file_last_extension_witness :
  allowed_file ascii_str_lower (u "holiday.png" ++ 46%N :: u "exe")%list =
    Returns (bool_decide (ascii_str_lower (u "exe") ∈ ALLOWED_EXTENSIONS)).
Proof.
  apply (allowed_file_reads_last_extension ascii_str_lower).
  intros H. apply list_elem_of_In in H. vm_compute in H. intuition discriminate.
Defined.

Lemma only_first_image_part_witness :
  handle (mock_env (happy_results float32 float32))
         crowded_upload =
  handle (mock_env (happy_results float32 float32)) (upload "happy.jpg").
Proof.
  exact (only_first_image_part_read ascii_str_lower ascii_nfkd
           (mock_env (happy_results float32 float32)) crowded_upload (upload "happy.jpg")
           empty_world eq_refl).
Defined.

Lemma success_only_with_probabilities_witness :
  exists file img probs rest,
    getitem "image" (req_files (upload "happy.jpg")) = Some file /\
    has_allowed_extension ascii_str_lower (filename file) /\
    model_calls happy_answer.2 =
      model_calls empty_world ++
      [inference_call
         (filepath_of ascii_nfkd (mock_env (happy_results float32 float32)) file) img
         (Returns (ResultList (Probs (Returns probs) :: rest)))] /\
    JPredictions (predictions (happy_vector float32 float32)) =
      JPredictions (predictions probs) /\
    fs happy_answer.2 !!
      filepath_of ascii_nfkd (mock_env (happy_results float32 float32)) file = None.
Proof.
  apply (success_only_with_probabilities ascii_str_lower ascii_nfkd
           (mock_env (happy_results float32 float32)) (upload "happy.jpg")
           empty_world).
  vm_compute. reflexivity.
Defined.

Lemma error_text_is_logged_witness :
  exists resp w' entries,
    handle (mock_env failing_model) (upload "happy.jpg") = (Returns resp, w') /\
    log w' = log empty_world ++ entries /\
    ((Forall is_info entries /\ length entries = 3%nat /\
      (resp.2 = 200%nat \/ resp = (JError "Unable to process the image", 500%nat)))
     \/ (exists infos e,
           entries = infos ++ [("ERROR", "Error during prediction: " +:+ exn_str e)] /\
           Forall is_info infos /\
           resp = (JError ("Error during prediction: " +:+ exn_str e), 500%nat))).
Proof.
  exact (error_text_is_logged ascii_str_lower ascii_nfkd (mock_env failing_model)
           (upload "happy.jpg") happy_file empty_world eq_refl happy_jpg_allowed
           (fun _ => eq_refl)).
Defined.

Lemma other_files_untouched_witness :
  fs (predict ascii_str_lower ascii_nfkd (mock_env failing_model) (upload "happy.jpg")
        world_with_leftover).2 =
  delete happy_path (fs world_with_leftover).
Proof.
  exact (other_files_untouched ascii_str_lower ascii_nfkd (mock_env failing_model)
           (upload "happy.jpg") happy_file world_with_leftover eq_refl
           happy_jpg_allowed (mock_env_touches_nothing _ _ _) (fun _ => eq_refl)).
Defined.

Lemma successful_prediction_witness :
  handle (mock_env (happy_results float32 float32)) (upload "happy.jpg") =
    (Returns (JPredictions (predictions (happy_vector float32 float32)), 200%nat),
     {| fs := delete happy_path
                (<[ happy_path := Saved (Resized (Decoded (stream happy_file) (640%nat, 480%nat))
                                           (224%nat, 224%nat)) ]>
                   (<[ happy_path := Uploaded (stream happy_file) ]> (fs empty_world)));
        log := log empty_world ++
               [("INFO", "Image saved at: " +:+ happy_path);
                ("INFO", "Original image size: " +:+ str_size (640%nat, 480%nat));
                ("INFO", "Image resized to: (224, 224)")];
        model_calls :=
          model_calls empty_world ++
          [inference_call happy_path (Decoded (stream happy_file) (640%nat, 480%nat))
             (Returns (ResultList [Probs (Returns (happy_vector float32 float32))]))] |}).
Proof.
  apply (successful_prediction ascii_str_lower ascii_nfkd
           (mock_env (happy_results float32 float32)) (upload "happy.jpg") happy_file
           empty_world (640%nat, 480%nat) (happy_vector float32 float32) []);
    try reflexivity.
  - exact happy_jpg_allowed.
  - eexists. vm_compute. reflexivity.
Defined.


Lemma upper_png_allowed : ascii_str_lower (u "PNG") ∈ ALLOWED_EXTENSIONS.
Proof. unfold ALLOWED_EXTENSIONS. set_unfold. done. Qed.

Lemma ascii_tables_nfkd_suffix (s t : ustr) :
  Forall (fun c => is_ascii c = true) t -> ascii_nfkd (s ++ t)%list = (ascii_nfkd s ++ t)%list.
Proof. reflexivity. Qed.

(** A name whose stem is written in kanji. *)
Lemma stored_name_keeps_extension_witness :
  let name := secure_filename ascii_nfkd ([26085; 26412]%N ++ 46%N :: u "PNG")%list in
  (exists base,
     name = base +:+ ascii_text (u "PNG") /\ (base = "" \/ exists b, base = b +:+ "."))
  /\ (Forall (fun c => kept_anywhere c = false) (ascii_nfkd [26085; 26412]%N) ->
      name = ascii_text (u "PNG"))
  /\ (Exists (fun c => kept_anywhere c = true) (ascii_nfkd [26085; 26412]%N) ->
      exists b, name = (b +:+ ".") +:+ ascii_text (u "PNG")).
Proof.
  exact (stored_name_keeps_extension ascii_str_lower ascii_nfkd
           ascii_tables_lower_ascii ascii_tables_lower_non_ascii ascii_tables_nfkd_suffix
           [26085; 26412]%N (u "PNG") upper_png_allowed).
Defined.

End FurtherWitness.
